(** * ezdxf.addons.iterdxf: streaming DXF reader and selective exporter

    A shallow embedding of [src/ezdxf/addons/iterdxf.py]: the byte-level tag
    tokenizer [binary_tagger], the indexed iterator [IterDXF], the exporter
    [IterDXFWriter] and the single-pass iterator [single_pass_modelspace].

    Python values are modelled as follows.
    - [bytes] is a list of [byte]; [str] is a list of Unicode code points.
    - An exception is a value of [exn]; a call that can raise returns [res].
    - A file object is a record with its content, position and closed flag,
      threaded through every call that touches it.
    - A generator is its state plus a [next] function; running it to its end
      gives the list of yielded values and the way it ended. *)

From stdpp Require Import base list gmap strings pretty.
From Stdlib Require Import ZArith Lia Strings.Byte.

Local Open Scope Z_scope.

(** ** Python values *)

Abbreviation bytes := (list byte).
Abbreviation str := (list Z).

#[global] Instance byte_eq_dec : EqDecision byte := Byte.byte_eq_dec.

(** Byte literal [b'...'] and text literal ['...'] from an ASCII string. *)
Definition B (s : string) : bytes := String.list_byte_of_string s.
Definition ord (b : byte) : Z := Z.of_N (Byte.to_N b).
Definition U (s : string) : str := ord <$> B s.

Definition LF : byte := "010"%byte.
Definition CR : byte := "013"%byte.

Inductive exn :=
| DXFStructureError (msg : string)
| ValueError
| UnicodeDecodeError      (* a subclass of ValueError *)
| UnicodeEncodeError      (* a subclass of ValueError *)
| OSError                 (* IOError is an alias of OSError *)
| LookupError
| IndexError
| KeyError
| AttributeError
| ConstructionError (msg : string).

#[global] Instance exn_eq_dec : EqDecision exn.
Proof. solve_decision. Defined.

(** [except ValueError] also catches the subclass. *)
Definition is_ValueError (e : exn) : bool :=
  match e with
  | ValueError | UnicodeDecodeError | UnicodeEncodeError => true
  | _ => false
  end.

Inductive res (A : Type) :=
| Ok (a : A)
| Raise (e : exn).
Arguments Ok {A} a.
Arguments Raise {A} e.

#[global] Instance res_bind : MBind res := fun A B k r =>
  match r with Ok a => k a | Raise e => Raise e end.
#[global] Instance res_ret : MRet res := fun A a => Ok a.

(** Lexicographic order of [str] by code point: Python's [a > b]. *)
Fixpoint str_gt (a b : str) : bool :=
  match a, b with
  | [], _ => false
  | _ :: _, [] => true
  | x :: a', y :: b' =>
      if x <? y then false else if y <? x then true else str_gt a' b'
  end.

(** *** int(bytes)

    Python accepts optional surrounding whitespace, an optional sign and
    decimal digits that may be separated by single underscores. *)
Definition is_space (c : Z) : bool :=
  bool_decide (c = 32) || ((9 <=? c) && (c <=? 13)).

Definition is_digit (c : Z) : bool := (48 <=? c) && (c <=? 57).

Fixpoint lstrip (l : list Z) : list Z :=
  match l with
  | c :: r => if is_space c then lstrip r else l
  | [] => []
  end.

Definition strip (l : list Z) : list Z := reverse (lstrip (reverse (lstrip l))).

Fixpoint digits (acc : Z) (after_underscore : bool) (l : list Z) : option Z :=
  match l with
  | [] => if after_underscore then None else Some acc
  | c :: r =>
      if is_digit c then digits (10 * acc + (c - 48)) false r
      else if bool_decide (c = 95) then
             if after_underscore then None else digits acc true r
           else None
  end.

Definition unsigned (l : list Z) : option Z :=
  match l with
  | c :: r => if is_digit c then digits (c - 48) false r else None
  | [] => None
  end.

Definition int_of_codes (l : list Z) : option Z :=
  match strip l with
  | 43 :: r => unsigned r
  | 45 :: r => Z.opp <$> unsigned r
  | r => unsigned r
  end.

Definition int (b : bytes) : option Z := int_of_codes (ord <$> b).

(** *** bytes.rstrip(b'\r\n'): drop every trailing CR or LF. *)
Fixpoint lstrip_crlf (l : bytes) : bytes :=
  match l with
  | c :: r => if bool_decide (c = CR) || bool_decide (c = LF) then lstrip_crlf r else l
  | [] => []
  end.

Definition rstrip_crlf (l : bytes) : bytes := reverse (lstrip_crlf (reverse l)).

(** ** Binary streams *)

(** A readable binary stream.  [fail_in = Some n] schedules a device failure:
    [n] more reads succeed and every later one raises [OSError]. *)
Record BinaryIO := mkBinaryIO {
  buf : bytes;
  closed : bool;
  fail_in : option nat
}.

Definition open_stream (content : bytes) : BinaryIO :=
  {| buf := content; closed := false; fail_in := None |}.

(** The next line, up to and including its LF, and the rest. *)
Fixpoint split_line (l : bytes) : bytes * bytes :=
  match l with
  | [] => ([], [])
  | c :: r =>
      if bool_decide (c = LF) then ([c], r)
      else let '(line, rest) := split_line r in (c :: line, rest)
  end.

Definition readline (f : BinaryIO) : res bytes * BinaryIO :=
  if closed f then (Raise ValueError, f)
  else match fail_in f with
       | Some O => (Raise OSError, f)
       | k =>
           let '(line, rest) := split_line (buf f) in
           (Ok line, {| buf := rest; closed := false; fail_in := pred <$> k |})
       end.

Definition stream_close (f : BinaryIO) : BinaryIO :=
  {| buf := buf f; closed := true; fail_in := fail_in f |}.

(** ** Tags *)

Inductive tagvalue :=
| VBytes (b : bytes)
| VStr (s : str).

#[global] Instance tagvalue_eq_dec : EqDecision tagvalue.
Proof. solve_decision. Defined.

Record DXFTag := mkTag { code : Z; value : tagvalue }.

#[global] Instance DXFTag_eq_dec : EqDecision DXFTag.
Proof. solve_decision. Defined.

(** ** Collaborators

    The interfaces this module calls but does not define. *)
Class Codecs := {
  (** [bytes.decode(encoding)] of the Python codec registry. *)
  decode : str → bytes → res str;
  (** [str.encode(encoding)]. *)
  encode : str → str → res bytes;
  (** Decoding fails with a Unicode or lookup error, never with an I/O
      error. *)
  decode_not_OSError : ∀ enc data, decode enc data ≠ Raise OSError
}.

(** ** binary_tagger *)

Section Tagger.
Context `{Codecs}.

Definition load_tag (encoding : option str) (file : BinaryIO)
  : res DXFTag * BinaryIO :=
  match readline file with
  | (Raise e, f1) =>
      if is_ValueError e
      then (Raise (DXFStructureError "Invalid group code"), f1)
      else (Raise e, f1)
  | (Ok line, f1) =>
      match int line with
      | None => (Raise (DXFStructureError "Invalid group code"), f1)
      | Some code =>
          if (code <? 0) || (1071 <? code)
          then (Raise (DXFStructureError ("Invalid group code " +:+ pretty code)), f1)
          else
            match readline f1 with
            | (Raise e, f2) => (Raise e, f2)
            | (Ok line2, f2) =>
                let value := rstrip_crlf line2 in
                match encoding with
                | Some ((_ :: _) as enc) =>
                    (v ← decode enc value; Ok (mkTag code (VStr v)), f2)
                | _ => (Ok (mkTag code (VBytes value)), f2)
                end
            end
      end
  end.

(** The generator object: its captured [encoding] argument and whether
    it has finished.  The file is shared with the caller and is passed to
    every [next]. *)
Record tagger := mkTagger {
  t_encoding : option str;
  finished : bool
}.

Inductive outcome (A : Type) :=
| Yield (a : A)
| StopIteration
| Throw (e : exn).
#[global] Arguments Yield {A} a.
#[global] Arguments StopIteration {A}.
#[global] Arguments Throw {A} e.

Definition binary_tagger (encoding : option str) : tagger :=
  {| t_encoding := encoding; finished := false |}.

Definition done (g : tagger) : tagger :=
  {| t_encoding := t_encoding g; finished := true |}.

(** [next(gen)]: a finished generator only ever stops. *)
Definition tagger_next (g : tagger) (file : BinaryIO)
  : outcome DXFTag * tagger * BinaryIO :=
  if finished g then (StopIteration, g, file)
  else match load_tag (t_encoding g) file with
       | (Ok t, f') => (Yield t, g, f')
       | (Raise OSError, f') => (StopIteration, done g, f')
       | (Raise e, f') => (Throw e, done g, f')
       end.

(** How a generator run ended: by returning or by an exception. *)
Inductive gen_end :=
| GenStop
| GenRaise (e : exn).

(** Drain the generator: every tag with the stream as it was left after
    reading it, then the ending and the final stream.  [None] when the
    fuel does not reach the end. *)
Fixpoint tagger_run (fuel : nat) (g : tagger) (file : BinaryIO)
  : option (list (DXFTag * BinaryIO) * gen_end * BinaryIO) :=
  match fuel with
  | O => None
  | S fuel' =>
      match tagger_next g file with
      | (Yield t, g', f') =>
          '(ts, e, fe) ← tagger_run fuel' g' f'; Some ((t, f') :: ts, e, fe)
      | (StopIteration, _, f') => Some ([], GenStop, f')
      | (Throw e, _, f') => Some ([], GenRaise e, f')
      end
  end.

(** Every yielded tag consumes at least one byte, so this fuel is enough
    (see [tags_of_total]). *)
Definition tags_of (encoding : option str) (file : BinaryIO)
  : option (list (DXFTag * BinaryIO) * gen_end * BinaryIO) :=
  tagger_run (S (length (buf file))) (binary_tagger encoding) file.

End Tagger.

(** ** Entities

    A [DXFGraphic] as far as this module looks into it: its type name, its
    attribute tags, the fields [IterDXFWriter.write] resets and the records
    linked to it (the vertices of a POLYLINE, the attribs of an INSERT). *)
#[local] Unset Elimination Schemes.
Inductive DXFEntity := mkEntity {
  dxftype : str;
  dxf_tags : list DXFTag;
  paperspace : Z;
  attribs_follow : bool;
  xdata : option (list DXFTag);
  appdata : option (list DXFTag);
  extension_dict : option str;
  reactors : option (list str);
  linked : list DXFEntity;
  seqend : option DXFEntity
}.
#[local] Set Elimination Schemes.

#[global] Instance DXFEntity_inhabited : Inhabited DXFEntity :=
  populate (mkEntity [] [] 0 false None None None None [] None).

(** Entity objects are shared between the iterator, which queues one, and
    the linker, which attaches later records to it: they live in a store and
    are referred to by their position in it. *)
Abbreviation store := (list DXFEntity).

(** ** The file structure index (ezdxf.lldxf.fileindex) *)

Record IndexEntry := mkEntry {
  ie_code : Z;
  ie_value : str;
  location : Z
}.

Record FileStructure := mkStructure {
  index : list IndexEntry;
  version : str;
  encoding : str
}.

(** Python's [l[i]] for any integer [i]. *)
Definition getitem {A} (l : list A) (i : Z) : res A :=
  let n := Z.of_nat (length l) in
  let j := if 0 <=? i then i else n + i in
  if (0 <=? j) && (j <? n) then
    match l !! Z.to_nat j with Some a => Ok a | None => Raise IndexError end
  else Raise IndexError.

(** The entries [l[start]], [l[start + 1]], ... that a loop counting up from
    [start] reads before [l[i]] raises [IndexError]. *)
Definition entries_from {A} (l : list A) (start : Z) : list A :=
  let n := Z.of_nat (length l) in
  if 0 <=? start then drop (Z.to_nat start) l
  else if - n <=? start then drop (Z.to_nat (n + start)) l ++ l
  else [].

(** ** Seekable files *)

Record File := mkFile {
  content : bytes;
  pos : nat;
  file_closed : bool
}.

Definition open_rb (data : bytes) : File :=
  {| content := data; pos := O; file_closed := false |}.

Definition seek (f : File) (offset : Z) : res unit * File :=
  if file_closed f then (Raise ValueError, f)
  else if offset <? 0 then (Raise OSError, f)
  else (Ok (), {| content := content f; pos := Z.to_nat offset; file_closed := false |}).

(** [read(n)]: [n] bytes at most; all the rest for [-1]. *)
Definition read (f : File) (n : Z) : res bytes * File :=
  if file_closed f then (Raise ValueError, f)
  else if n <? -1 then (Raise ValueError, f)
  else
    let rest := drop (pos f) (content f) in
    let data := if n =? -1 then rest else take (Z.to_nat n) rest in
    (Ok data, {| content := content f; pos := (pos f + length data)%nat; file_closed := false |}).

Definition file_close (f : File) : File :=
  {| content := content f; pos := pos f; file_closed := true |}.

(** A file opened with mode ['wb']. *)
Record OutFile := mkOutFile {
  written : bytes;
  out_closed : bool
}.

Definition open_wb : OutFile := {| written := []; out_closed := false |}.

Definition file_write (f : OutFile) (data : bytes) : res unit * OutFile :=
  if out_closed f then (Raise ValueError, f)
  else (Ok (), {| written := written f ++ data; out_closed := false |}).

Definition out_close (f : OutFile) : OutFile :=
  {| written := written f; out_closed := true |}.

(** ** Collaborators of the iterators and the exporter *)

Class Collaborators := {
  (** ezdxf.tools.codepage.toencoding *)
  toencoding : str → str;
  (** ezdxf.lldxf.fileindex.load, on the content of the named file *)
  fileindex_load : bytes → res FileStructure;
  (** ezdxf.lldxf.tagger.tag_compiler, as a function of the whole run of the
      tagger it consumes *)
  tag_compiler : list DXFTag * gen_end → list DXFTag * gen_end;
  ExtendedTags : Type;
  (** ExtendedTags(tags) *)
  ExtendedTags_init : list DXFTag → res ExtendedTags;
  (** ExtendedTags.from_text(text) *)
  ExtendedTags_from_text : str → res ExtendedTags;
  (** EntityFactory().entity(xtags) *)
  factory_entity : ExtendedTags → res DXFEntity;
  (** The closure returned by entity_linker(): its state, its initial state
      and one call on the entity at a position of the store. *)
  linker : Type;
  entity_linker : linker;
  linked_entity : linker → store → nat → bool * linker * store;
  (** entity.export_dxf(TagWriter(text, dxfversion)): the text written *)
  export_dxf : str → DXFEntity → res str
}.

Definition SUPPORTED_DXF_TYPES : gset str :=
  list_to_set (U <$> [
    "ARC"; "LINE"; "CIRCLE"; "ELLIPSE"; "POINT"; "LWPOLYLINE"; "SPLINE";
    "3DFACE"; "SOLID"; "TRACE"; "POLYLINE"; "VERTEX"; "SEQEND"; "MESH";
    "TEXT"; "MTEXT"; "HATCH"; "INSERT"; "ATTRIB"; "ATTDEF"
  ]).

(** [str.replace('\r\n', '\n')] *)
Fixpoint replace_crlf (s : str) : str :=
  match s with
  | 13 :: r =>
      match r with
      | 10 :: r' => 10 :: replace_crlf r'
      | _ => 13 :: replace_crlf r
      end
  | c :: r => c :: replace_crlf r
  | [] => []
  end.

(** Modelled from the spec: [FileStructure.get(code, value, start)] of
    ezdxf.lldxf.fileindex is not under src/.  It returns the position of the
    first index entry at or after [start] that has the given code and value,
    and raises [ValueError] when no entry matches before the end of the
    index ("no matching end marker was found before end of input"). *)
Fixpoint find_entry (c : Z) (v : str) (l : list IndexEntry) (i : Z) : res Z :=
  match l with
  | [] => Raise ValueError
  | e :: r =>
      if bool_decide (ie_code e = c) && bool_decide (ie_value e = v)
      then Ok i else find_entry c v r (i + 1)
  end.

Definition FileStructure_get (self : FileStructure) (c : Z) (v : str) (start : Z)
  : res Z :=
  find_entry c v (entries_from (index self) start) start.

Section Iterdxf.
Context `{Codecs} `{Collaborators}.

(** *** The queue of one entity (lines 112-115 and 261-264)

    The entity just built is handed to the linker; when it is not linked
    to an earlier one and lies in the modelspace, the queued entity is
    yielded as it is now and the new one takes its place. *)
Definition put (st : store) (entity : DXFEntity) : nat * store :=
  (length st, st ++ [entity]).

Definition queue_entity (entity : DXFEntity)
    (st : store) (lk : linker) (queued : option nat) (out : list DXFEntity)
  : store * linker * option nat * list DXFEntity :=
  let '(r, st1) := put st entity in
  let '(is_linked, lk', st2) := linked_entity lk st1 r in
  if negb is_linked && (paperspace (st2 !!! r) =? 0) then
    (st2, lk', Some r,
     match queued with Some q => out ++ [st2 !!! q] | None => out end)
  else (st2, lk', queued, out).

(** [if queued: yield queued] *)
Definition flush (st : store) (queued : option nat) (out : list DXFEntity)
  : list DXFEntity :=
  match queued with Some q => out ++ [st !!! q] | None => out end.

(** *** class IterDXF *)

Record IterDXF := mkIterDXF {
  structure : FileStructure;
  sections : gmap str Z;
  file : File
}.

Definition set_file (self : IterDXF) (f : File) : IterDXF :=
  {| structure := structure self; sections := sections self; file := f |}.

Definition IterDXF_encoding (self : IterDXF) : str := encoding (structure self).
Definition IterDXF_dxfversion (self : IterDXF) : str := version (structure self).

(** The loop of [_load_index] over [structure.index]. *)
Definition index_step (acc : list IndexEntry * gmap str Z) (e : IndexEntry)
  : list IndexEntry * gmap str Z :=
  let '(new_index, sections) := acc in
  if ie_code e =? 0 then (new_index ++ [e], sections)
  else if ie_code e =? 2
       then (new_index, <[ie_value e := Z.of_nat (length new_index) - 1]> sections)
       else (new_index, sections).

Definition _load_index (name : bytes) : res (FileStructure * gmap str Z) :=
  structure ← fileindex_load name;
  let '(new_index, sections) := foldl index_step ([], ∅) (index structure) in
  Ok ({| index := new_index;
         version := version structure;
         encoding := encoding structure |}, sections).

(** [IterDXF(name)], on the content of the file called [name]. *)
Definition IterDXF_init (name : bytes) : res IterDXF :=
  '(structure, sections) ← _load_index name;
  let file := open_rb name in
  if bool_decide (sections !! U "ENTITIES" = None)
  then Raise (DXFStructureError "ENTITIES section not found.")
  else if str_gt (version structure) (U "AC1009")
          && bool_decide (sections !! U "OBJECTS" = None)
       then Raise (DXFStructureError "OBJECTS section not found.")
       else Ok {| structure := structure; sections := sections; file := file |}.

Definition opendxf (filename : bytes) : res IterDXF := IterDXF_init filename.

Definition to_str (self : IterDXF) (data : bytes) : res str :=
  s ← decode (IterDXF_encoding self) data; Ok (replace_crlf s).

(** The [while] loop of [load_entities]: [entry] is the current entry and
    [rest] holds the entries the counter [index] has yet to reach. *)
Fixpoint load_entities_loop (self : IterDXF)
    (entry : IndexEntry) (rest : list IndexEntry) (f : File)
  : list DXFEntity * gen_end * File :=
  if bool_decide (ie_value entry = U "ENDSEC") then ([], GenStop, f)
  else
    match rest with
    | [] => ([], GenRaise IndexError, f)
    | next_entry :: rest' =>
        let size := location next_entry - location entry in
        match read f size with
        | (Raise e, f') => ([], GenRaise e, f')
        | (Ok data, f') =>
            if bool_decide (ie_value entry ∈ SUPPORTED_DXF_TYPES) then
              match (text ← to_str self data;
                     xtags ← ExtendedTags_from_text text;
                     factory_entity xtags) with
              | Raise e => ([], GenRaise e, f')
              | Ok entity =>
                  let '(es, e, fe) := load_entities_loop self next_entry rest' f' in
                  (entity :: es, e, fe)
              end
            else load_entities_loop self next_entry rest' f'
        end
    end.

Definition load_entities (self : IterDXF) (start : Z)
  : list DXFEntity * gen_end * File :=
  match entries_from (index (structure self)) start with
  | [] => ([], GenRaise IndexError, file self)
  | entry :: rest =>
      match seek (file self) (location entry) with
      | (Raise e, f) => ([], GenRaise e, f)
      | (Ok _, f) => load_entities_loop self entry rest f
      end
  end.

(** The [for] loop of [modelspace] over the entities [load_entities]
    yields. *)
Fixpoint modelspace_loop (es : list DXFEntity)
    (st : store) (lk : linker) (queued : option nat) (out : list DXFEntity)
  : store * option nat * list DXFEntity :=
  match es with
  | [] => (st, queued, out)
  | entity :: es' =>
      let '(st', lk', queued', out') := queue_entity entity st lk queued out in
      modelspace_loop es' st' lk' queued' out'
  end.

(** [modelspace()] run to its end: the entities yielded, how the
    generator ended and the object afterwards. *)
Definition IterDXF_modelspace (self : IterDXF)
  : list DXFEntity * gen_end * IterDXF :=
  match sections self !! U "ENTITIES" with
  | None => ([], GenRaise KeyError, self)
  | Some sec =>
      let '(es, e, f) := load_entities self (sec + 1) in
      let '(st, queued, out) := modelspace_loop es [] entity_linker None [] in
      match e with
      | GenStop => (flush st queued out, GenStop, set_file self f)
      | _ => (out, e, set_file self f)
      end
  end.

Definition IterDXF_close (self : IterDXF) : IterDXF :=
  set_file self (file_close (file self)).

(** [doc = opendxf(filename)] followed by [list(doc.modelspace())]: what a
    caller gets out of a file, and the exception that ended it, if any. *)
Definition modelspace_of (filename : bytes) : list DXFEntity * gen_end :=
  match opendxf filename with
  | Raise e => ([], GenRaise e)
  | Ok doc => let '(es, e, _) := IterDXF_modelspace doc in (es, e)
  end.


(** Offsets that do not decrease along the index, starting at [lo] or
    later. *)
Fixpoint ascending (lo : Z) (l : list IndexEntry) : Prop :=
  match l with
  | [] => True
  | e :: r => lo ≤ location e ∧ ascending (location e) r
  end.

(** *** class IterDXFWriter

    [text] is the content of the StringIO buffer behind [entity_writer].
    The loader is a reference to the [IterDXF] object, which stays with
    the caller: methods that use it take it as an argument and hand it back
    when they moved its file. *)
Record IterDXFWriter := mkWriter {
  out_file : OutFile;
  text : str
}.

(** [IterDXFWriter(name, loader)]: [open(name, mode='wb')] gives an empty
    file of its own. *)
Definition IterDXFWriter_init : IterDXFWriter :=
  {| out_file := open_wb; text := [] |}.

Definition write_data (self : IterDXFWriter) (data : bytes)
  : res unit * IterDXFWriter :=
  let '(r, f) := file_write (out_file self) data in
  (r, {| out_file := f; text := text self |}).

Definition IterDXF_export (self : IterDXF)
  : res IterDXFWriter * IterDXF :=
  let doc := IterDXFWriter_init in
  match sections self !! U "ENTITIES" with
  | None => (Raise KeyError, self)
  | Some sec =>
      match getitem (index (structure self)) (sec + 1) with
      | Raise e => (Raise e, self)
      | Ok entry =>
          let location := location entry in
          match seek (file self) 0 with
          | (Raise e, f) => (Raise e, set_file self f)
          | (Ok _, f) =>
              match read f location with
              | (Raise e, f') => (Raise e, set_file self f')
              | (Ok data, f') =>
                  match write_data doc data with
                  | (Raise e, _) => (Raise e, set_file self f')
                  | (Ok _, doc') => (Ok doc', set_file self f')
                  end
              end
          end
      end
  end.

Definition IterDXF_copy_objects_section (self : IterDXF) (f : OutFile)
  : res unit * IterDXF * OutFile :=
  match sections self !! U "OBJECTS" with
  | None => (Raise KeyError, self, f)
  | Some start_index =>
      match FileStructure_get (structure self) 0 (U "ENDSEC") start_index with
      | Raise e =>
          if is_ValueError e
          then (Raise (DXFStructureError "ENDSEC of OBJECTS section not found."), self, f)
          else (Raise e, self, f)
      | Ok end_index =>
          match getitem (index (structure self)) start_index with
          | Raise e => (Raise e, self, f)
          | Ok start_entry =>
              match getitem (index (structure self)) (end_index + 1) with
              | Raise e => (Raise e, self, f)
              | Ok end_entry =>
                  let start_location := location start_entry in
                  let end_location := location end_entry in
                  let count := end_location - start_location in
                  match seek (file self) start_location with
                  | (Raise e, sf) => (Raise e, set_file self sf, f)
                  | (Ok _, sf) =>
                      match read sf count with
                      | (Raise e, sf') => (Raise e, set_file self sf', f)
                      | (Ok data, sf') =>
                          let '(r, f') := file_write f data in
                          (r, set_file self sf', f')
                      end
                  end
              end
          end
      end
  end.

(** [entity.xdata = None] and the three assignments after it. *)
Definition remove_dependencies (entity : DXFEntity) : DXFEntity :=
  {| dxftype := dxftype entity;
     dxf_tags := dxf_tags entity;
     paperspace := paperspace entity;
     attribs_follow := attribs_follow entity;
     xdata := None;
     appdata := None;
     extension_dict := None;
     reactors := None;
     linked := linked entity;
     seqend := seqend entity |}.

(** [entity.export_dxf(self.entity_writer)] appends to the text buffer. *)
Definition export_to (dxfversion : str) (entity : DXFEntity) (text : str)
  : res unit * str :=
  match export_dxf dxfversion entity with
  | Ok t => (Ok (), text ++ t)
  | Raise e => (Raise e, text)
  end.

Fixpoint export_each (dxfversion : str) (es : list DXFEntity) (text : str)
  : res unit * str :=
  match es with
  | [] => (Ok (), text)
  | e :: es' =>
      match export_to dxfversion e text with
      | (Ok _, text') => export_each dxfversion es' text'
      | r => r
      end
  end.

(** [x.seqend.export_dxf(...)]: [None] has no such attribute. *)
Definition export_seqend (dxfversion : str) (entity : DXFEntity) (text : str)
  : res unit * str :=
  match seqend entity with
  | None => (Raise AttributeError, text)
  | Some s => export_to dxfversion s text
  end.

(** The text [write] collects for one entity, in a buffer reset to
    empty. *)
Definition export_entity (dxfversion : str) (entity : DXFEntity)
  : res unit * str :=
  match export_to dxfversion entity [] with
  | (Raise e, text) => (Raise e, text)
  | (Ok _, text) =>
      if bool_decide (dxftype entity = U "POLYLINE") then
        match export_each dxfversion (linked entity) text with
        | (Raise e, text') => (Raise e, text')
        | (Ok _, text') => export_seqend dxfversion entity text'
        end
      else if bool_decide (dxftype entity = U "INSERT") then
        if attribs_follow entity then
          match export_each dxfversion (linked entity) text with
          | (Raise e, text') => (Raise e, text')
          | (Ok _, text') => export_seqend dxfversion entity text'
          end
        else (Ok (), text)
      else (Ok (), text)
  end.

(** [write(entity)]: the writer and the entity object afterwards. *)
Definition IterDXFWriter_write (loader : IterDXF) (self : IterDXFWriter)
    (entity : DXFEntity)
  : res unit * IterDXFWriter * DXFEntity :=
  let entity := remove_dependencies entity in
  match export_entity (IterDXF_dxfversion loader) entity with
  | (Raise e, text) => (Raise e, {| out_file := out_file self; text := text |}, entity)
  | (Ok _, text) =>
      match encode (IterDXF_encoding loader) text with
      | Raise e => (Raise e, {| out_file := out_file self; text := text |}, entity)
      | Ok data =>
          let '(r, f) := file_write (out_file self) data in
          (r, {| out_file := f; text := text |}, entity)
      end
  end.

Definition ENDSEC_marker : bytes := B "  0" ++ [CR; LF] ++ B "ENDSEC" ++ [CR; LF].
Definition EOF_marker : bytes := B "  0" ++ [CR; LF] ++ B "EOF" ++ [CR; LF].

Definition with_file (self : IterDXFWriter) (f : OutFile) : IterDXFWriter :=
  {| out_file := f; text := text self |}.

(** [close()]: the writer and the loader afterwards. *)
Definition IterDXFWriter_close (loader : IterDXF) (self : IterDXFWriter)
  : res unit * IterDXFWriter * IterDXF :=
  match file_write (out_file self) ENDSEC_marker with
  | (Raise e, f) => (Raise e, with_file self f, loader)
  | (Ok _, f1) =>
      let '(r, loader', f2) :=
        if str_gt (IterDXF_dxfversion loader) (U "AC1009")
        then IterDXF_copy_objects_section loader f1
        else (Ok (), loader, f1) in
      match r with
      | Raise e => (Raise e, with_file self f2, loader')
      | Ok _ =>
          match file_write f2 EOF_marker with
          | (Raise e, f3) => (Raise e, with_file self f3, loader')
          | (Ok _, f3) => (Ok (), with_file self (out_close f3), loader')
          end
      end
  end.

(** The entities whose linked records [write] serializes. *)
Definition writes_linked (entity : DXFEntity) : Prop :=
  dxftype entity = U "POLYLINE"
  ∨ (dxftype entity = U "INSERT" ∧ attribs_follow entity = true).

(** The serialization of a list of records, one after the other. *)
Fixpoint records_text (dxfversion : str) (es : list DXFEntity) : res str :=
  match es with
  | [] => Ok []
  | e :: es' =>
      t ← export_dxf dxfversion e;
      ts ← records_text dxfversion es';
      Ok (t ++ ts)
  end.

(** The record group as the description of the exporter words it: the
    primary record, its dependents in order, and the terminator for every
    POLYLINE and every INSERT. *)
Definition described_record_group (dxfversion : str) (entity : DXFEntity)
  : res str :=
  primary ← export_dxf dxfversion entity;
  deps ← records_text dxfversion (linked entity);
  if bool_decide (dxftype entity = U "POLYLINE")
     || bool_decide (dxftype entity = U "INSERT")
  then match seqend entity with
       | Some s => term ← export_dxf dxfversion s; Ok (primary ++ deps ++ term)
       | None => Raise AttributeError
       end
  else Ok (primary ++ deps).

(** *** single_pass_modelspace *)

(** [fetch_header_var]: [False], ['ENCODING'] or ['VERSION']. *)
Inductive header_var := NoVar | ENCODING | VERSION.

Record header_state := mkHeader {
  fetch_header_var : header_var;
  h_encoding : str;
  h_version : str
}.

(** [value.decode()] of a tag value read without an encoding. *)
Definition value_decode (v : tagvalue) : res str :=
  match v with
  | VBytes b => decode (U "utf-8") b
  | VStr _ => Raise AttributeError
  end.

(** The body of the first loop after its [break] test. *)
Definition header_step (st : header_state) (tag : DXFTag) : res header_state :=
  if (code tag =? 9) && bool_decide (value tag = VBytes (B "$DWGCODEPAGE")) then
    Ok (mkHeader ENCODING (h_encoding st) (h_version st))
  else if (code tag =? 9) && bool_decide (value tag = VBytes (B "$ACADVERSION")) then
    Ok (mkHeader VERSION (h_encoding st) (h_version st))
  else
    match fetch_header_var st with
    | NoVar => Ok st
    | ENCODING =>
        s ← value_decode (value tag);
        Ok (mkHeader NoVar (toencoding s) (h_version st))
    | VERSION =>
        s ← value_decode (value tag);
        Ok (mkHeader NoVar (h_encoding st) s)
    end.

(** The first loop, over the tags of [binary_tagger(stream)]; [fe] is the
    stream after the last tag.  It ends at the first ENDSEC, at the end of
    the tags or with an exception. *)
Fixpoint scan_header (ts : list (DXFTag * BinaryIO)) (e : gen_end)
    (fe : BinaryIO) (st : header_state) : res (header_state * BinaryIO) :=
  match ts with
  | [] =>
      match e with
      | GenStop => Ok (st, fe)
      | GenRaise x => Raise x
      end
  | (tag, f) :: ts' =>
      if (code tag =? 0) && bool_decide (value tag = VBytes (B "ENDSEC"))
      then Ok (st, f)
      else st' ← header_step st tag; scan_header ts' e fe st'
  end.

(** The local variables of the second loop. *)
Record loop_state := mkLoop {
  encoding_var : str;
  prev_code : Z;
  prev_value : tagvalue;
  structure_var : option tagvalue;
  queued : option nat;
  tags : list DXFTag;
  entities : bool;
  entity_store : store;
  linked_state : linker;
  yielded : list DXFEntity
}.

(** [structure in SUPPORTED_DXF_TYPES] *)
Definition supported (structure : option tagvalue) : bool :=
  match structure with
  | Some (VStr s) => bool_decide (s ∈ SUPPORTED_DXF_TYPES)
  | _ => false
  end.

Definition build_entity (tags : list DXFTag) : res DXFEntity :=
  xtags ← ExtendedTags_init tags; factory_entity xtags.

(** How [single_pass_modelspace] ended: by [return] at the ENDSEC of the
    ENTITIES section, by falling off the second loop, or by an exception. *)
Inductive sp_end :=
| SpReturn
| SpExhausted
| SpRaise (e : exn).

(** One pass through the body of the second loop: the next state, or the
    end of the generator with everything it yielded. *)
Definition loop_step (version : str) (s : loop_state) (tag : DXFTag)
  : loop_state + list DXFEntity * sp_end :=
  let code := code tag in
  let value := value tag in
  if entities s then
    if (code =? 0) && bool_decide (value = VStr (U "ENDSEC")) then
      inr (flush (entity_store s) (queued s) (yielded s), SpReturn)
    else if code =? 0 then
      if negb (bool_decide (tags s = [])) && supported (structure_var s) then
        match build_entity (tags s) with
        | Raise e => inr (yielded s, SpRaise e)
        | Ok entity =>
            let '(st, lk, queued, out) :=
              queue_entity entity (entity_store s) (linked_state s)
                           (queued s) (yielded s) in
            inl (mkLoop (encoding_var s) (prev_code s) (prev_value s)
                        (Some value) queued [tag] true st lk out)
        end
      else
        inl (mkLoop (encoding_var s) (prev_code s) (prev_value s)
                    (Some value) (queued s) [tag] true
                    (entity_store s) (linked_state s) (yielded s))
    else
      inl (mkLoop (encoding_var s) (prev_code s) (prev_value s)
                  (structure_var s) (queued s) (tags s ++ [tag]) true
                  (entity_store s) (linked_state s) (yielded s))
  else if code =? 0 then
    inl (mkLoop (encoding_var s) code value
                (Some value) (queued s) (tags s) false
                (entity_store s) (linked_state s) (yielded s))
  else if (code =? 2) && (prev_code s =? 0)
          && bool_decide (prev_value s = VStr (U "SECTION")) then
    let entities := bool_decide (value = VStr (U "ENTITIES")) in
    let encoding :=
      if entities && str_gt version (U "AC1009")
      then U "utf-8" else encoding_var s in
    inl (mkLoop encoding code value
                (structure_var s) (queued s) (tags s) entities
                (entity_store s) (linked_state s) (yielded s))
  else
    inl (mkLoop (encoding_var s) code value
                (structure_var s) (queued s) (tags s) false
                (entity_store s) (linked_state s) (yielded s)).

(** The second loop over the compiled tags. *)
Fixpoint entities_loop (version : str) (ts : list DXFTag) (e : gen_end)
    (s : loop_state) : list DXFEntity * sp_end :=
  match ts with
  | [] =>
      match e with
      | GenStop => (yielded s, SpExhausted)
      | GenRaise x => (yielded s, SpRaise x)
      end
  | tag :: ts' =>
      match loop_step version s tag with
      | inl s' => entities_loop version ts' e s'
      | inr r => r
      end
  end.

Definition loop_start (encoding : str) : loop_state :=
  mkLoop encoding (-1) (VStr []) None None [] false [] entity_linker [].

(** What a run of the generator leaves behind. *)
Record sp_result := mkResult {
  sp_entities : list DXFEntity;
  sp_ending : sp_end;
  sp_stream_closed : bool
}.

(** The first loop on [binary_tagger(stream)]: the header variables it
    found and the stream as it left it. *)
Definition header_of (stream : BinaryIO) : option (res (header_state * BinaryIO)) :=
  '(ts, e, fe) ← tags_of None stream;
  Some (scan_header ts e fe (mkHeader NoVar (U "cp1252") (U "AC1009"))).

(** [tag_compiler(binary_tagger(stream, encoding))] drained. *)
Definition compiled_tags (encoding : str) (stream : BinaryIO)
  : option (list DXFTag * gen_end) :=
  '(ts, e, _) ← tags_of (Some encoding) stream;
  Some (tag_compiler (fst <$> ts, e)).

(** The second loop as far as it gets through [ts] without ending the
    generator. *)
Fixpoint loop_prefix (version : str) (ts : list DXFTag) (s : loop_state)
  : option loop_state :=
  match ts with
  | [] => Some s
  | tag :: ts' =>
      match loop_step version s tag with
      | inl s' => loop_prefix version ts' s'
      | inr _ => None
      end
  end.

(** [single_pass_modelspace(stream)] run to its end; [None] only if the
    fuel of the tagger gave out.  The tagger of the second loop is created
    with the encoding found by the first loop and keeps it: the later
    assignment to the local [encoding] does not reach it.  [stream.close()]
    stands after the second loop. *)
Definition single_pass_modelspace (stream : BinaryIO) : option sp_result :=
  header ← header_of stream;
  match header with
  | Raise x => Some (mkResult [] (SpRaise x) (closed stream))
  | Ok (hd, stream') =>
      let encoding := h_encoding hd in
      let version := h_version hd in
      '(ts, e) ← compiled_tags encoding stream';
      let '(out, ending) := entities_loop version ts e (loop_start encoding) in
      Some (mkResult out ending
              (match ending with
               | SpExhausted => true
               | _ => closed stream
               end))
  end.

End Iterdxf.

(** ** The codecs this module names

    The text codecs ['cp1252'] and ['utf-8'] of the Python codec registry,
    both strict.  Any other name is outside this instance and is answered
    with [LookupError]. *)
Module PythonCodecs.

(** The code points of the bytes 0x80 to 0x9F in cp1252; five of them
    are undefined. *)
Definition cp1252_high : list (option Z) :=
  [Some 8364; None; Some 8218; Some 402; Some 8222; Some 8230; Some 8224;
   Some 8225; Some 710; Some 8240; Some 352; Some 8249; Some 338; None;
   Some 381; None; None; Some 8216; Some 8217; Some 8220; Some 8221;
   Some 8226; Some 8211; Some 8212; Some 732; Some 8482; Some 353;
   Some 8250; Some 339; None; Some 382; Some 376].

Definition cp1252_char (b : Z) : option Z :=
  if (128 <=? b) && (b <=? 159)
  then mjoin (cp1252_high !! Z.to_nat (b - 128))
  else Some b.

Definition cp1252_decode (l : bytes) : res str :=
  match mapM (fun b => cp1252_char (ord b)) l with
  | Some s => Ok s
  | None => Raise UnicodeDecodeError
  end.

Definition continuation (c : Z) : bool := (128 <=? c) && (c <=? 191).

Fixpoint utf8_decode_codes (l : list Z) : res str :=
  match l with
  | [] => Ok []
  | a :: r =>
      if a <? 128 then s ← utf8_decode_codes r; Ok (a :: s)
      else
        match r with
        | [] => Raise UnicodeDecodeError
        | b :: r1 =>
            if (194 <=? a) && (a <=? 223) then
              if continuation b
              then s ← utf8_decode_codes r1; Ok ((a - 192) * 64 + (b - 128) :: s)
              else Raise UnicodeDecodeError
            else
              match r1 with
              | [] => Raise UnicodeDecodeError
              | c :: r2 =>
                  if (224 <=? a) && (a <=? 239) then
                    let cp := (a - 224) * 4096 + (b - 128) * 64 + (c - 128) in
                    if continuation b && continuation c && (2048 <=? cp)
                       && negb ((55296 <=? cp) && (cp <=? 57343))
                    then s ← utf8_decode_codes r2; Ok (cp :: s)
                    else Raise UnicodeDecodeError
                  else
                    match r2 with
                    | [] => Raise UnicodeDecodeError
                    | d :: r3 =>
                        let cp := (a - 240) * 262144 + (b - 128) * 4096
                                  + (c - 128) * 64 + (d - 128) in
                        if (240 <=? a) && (a <=? 244) && continuation b
                           && continuation c && continuation d
                           && (65536 <=? cp) && (cp <=? 1114111)
                        then s ← utf8_decode_codes r3; Ok (cp :: s)
                        else Raise UnicodeDecodeError
                    end
              end
        end
  end.

Definition utf8_decode (l : bytes) : res str := utf8_decode_codes (ord <$> l).

Definition byte_of (c : Z) : option byte := Byte.of_N (Z.to_N c).

(** The position of a code point in the table of the high half. *)
Fixpoint position (c : Z) (t : list (option Z)) (i : Z) : option Z :=
  match t with
  | [] => None
  | x :: t' => if bool_decide (x = Some c) then Some i else position c t' (i + 1)
  end.

Definition cp1252_byte (c : Z) : option byte :=
  if (0 <=? c) && (c <? 128) || (160 <=? c) && (c <=? 255) then byte_of c
  else position c cp1252_high 128 ≫= byte_of.

Definition cp1252_encode (s : str) : res bytes :=
  match mapM cp1252_byte s with
  | Some l => Ok l
  | None => Raise UnicodeEncodeError
  end.

Definition utf8_bytes (c : Z) : option (list Z) :=
  if c <? 0 then None
  else if c <? 128 then Some [c]
  else if c <? 2048 then Some [192 + c / 64; 128 + c mod 64]
  else if (55296 <=? c) && (c <=? 57343) then None
  else if c <? 65536 then
    Some [224 + c / 4096; 128 + (c / 64) mod 64; 128 + c mod 64]
  else if c <=? 1114111 then
    Some [240 + c / 262144; 128 + (c / 4096) mod 64;
          128 + (c / 64) mod 64; 128 + c mod 64]
  else None.

Definition utf8_encode (s : str) : res bytes :=
  match mapM utf8_bytes s ≫= (fun ls => mapM byte_of (concat ls)) with
  | Some l => Ok l
  | None => Raise UnicodeEncodeError
  end.

Definition py_decode (enc : str) (data : bytes) : res str :=
  if bool_decide (enc = U "cp1252") then cp1252_decode data
  else if bool_decide (enc = U "utf-8") then utf8_decode data
  else Raise LookupError.

Definition py_encode (enc : str) (s : str) : res bytes :=
  if bool_decide (enc = U "cp1252") then cp1252_encode s
  else if bool_decide (enc = U "utf-8") then utf8_encode s
  else Raise LookupError.

Lemma utf8_decode_codes_eq (a : Z) (r : list Z) :
  utf8_decode_codes (a :: r) =
  if a <? 128 then s ← utf8_decode_codes r; Ok (a :: s)
  else
    match r with
    | [] => Raise UnicodeDecodeError
    | b :: r1 =>
        if (194 <=? a) && (a <=? 223) then
          if continuation b
          then s ← utf8_decode_codes r1; Ok ((a - 192) * 64 + (b - 128) :: s)
          else Raise UnicodeDecodeError
        else
          match r1 with
          | [] => Raise UnicodeDecodeError
          | c :: r2 =>
              if (224 <=? a) && (a <=? 239) then
                let cp := (a - 224) * 4096 + (b - 128) * 64 + (c - 128) in
                if continuation b && continuation c && (2048 <=? cp)
                   && negb ((55296 <=? cp) && (cp <=? 57343))
                then s ← utf8_decode_codes r2; Ok (cp :: s)
                else Raise UnicodeDecodeError
              else
                match r2 with
                | [] => Raise UnicodeDecodeError
                | d :: r3 =>
                    let cp := (a - 240) * 262144 + (b - 128) * 4096
                              + (c - 128) * 64 + (d - 128) in
                    if (240 <=? a) && (a <=? 244) && continuation b
                       && continuation c && continuation d
                       && (65536 <=? cp) && (cp <=? 1114111)
                    then s ← utf8_decode_codes r3; Ok (cp :: s)
                    else Raise UnicodeDecodeError
                end
          end
    end.
Proof. reflexivity. Qed.

Lemma bind_raises {A B} (m : res A) (k : A → res B) (e : exn) (P : Prop) :
  (m ≫= k) = Raise e →
  (∀ a, m = Ok a → k a = Raise e → P) → (m = Raise e → P) → P.
Proof.
  intros Hb Hok Hraise. destruct m as [a|x]; cbn in Hb.
  - exact (Hok a eq_refl Hb).
  - apply Hraise. congruence.
Qed.

Lemma utf8_decode_codes_raises (n : nat) :
  ∀ l e, (length l ≤ n)%nat → utf8_decode_codes l = Raise e → e = UnicodeDecodeError.
Proof.
  induction n as [|n IH]; intros l e Hlen Hr.
  - destruct l; simpl in *; [discriminate | lia].
  - destruct l as [|a r]; [discriminate|].
    rewrite utf8_decode_codes_eq in Hr. cbn [length] in Hlen.
    assert (Hrec : ∀ l', (length l' ≤ length r)%nat →
              ∀ k : str → res str, (∀ s, k s ≠ Raise e) →
              (utf8_decode_codes l' ≫= k) = Raise e → e = UnicodeDecodeError).
    { intros l' Hl' k Hk Hb. apply (bind_raises _ _ _ _ Hb).
      - intros s _ Hs. destruct (Hk _ Hs).
      - apply IH. lia. }
    repeat match type of Hr with
      | Raise _ = Raise _ => injection Hr as <-; reflexivity
      | (_ ≫= _) = Raise _ =>
          apply Hrec in Hr; [exact Hr | cbn [length]; lia | discriminate]
      | (let cp := _ in _) = _ => cbv zeta in Hr
      | (if ?b then _ else _) = _ => destruct b
      | match ?x with [] => _ | _ :: _ => _ end = _ => destruct x
      end.
Qed.

Lemma py_decode_not_OSError (enc : str) (data : bytes) :
  py_decode enc data ≠ Raise OSError.
Proof.
  unfold py_decode. repeat case_bool_decide; try discriminate.
  - unfold cp1252_decode. destruct (mapM _ _); discriminate.
  - intros Hr. apply (utf8_decode_codes_raises _ _ _ (le_n _)) in Hr. discriminate.
Qed.

#[global] Instance codecs : Codecs := {|
  decode := py_decode;
  encode := py_encode;
  decode_not_OSError := py_decode_not_OSError
|}.

End PythonCodecs.

(** ** The collaborators, modelled from the spec

    None of the modules behind [Collaborators] is under src/.  The instance
    below follows the spec's description of each of them; it gives the
    iterators and the exporter something to run on. *)
Module SpecModel.
Import PythonCodecs.

(** Modelled from the spec: ezdxf.tools.codepage.toencoding is missing.
    "Given a declared codepage name, returns a text-encoding identifier;
    unknown codepages fall back to a documented legacy default, never a
    hard failure." *)
Definition toencoding (dxfcodepage : str) : str :=
  if bool_decide (dxfcodepage = U "UTF-8") then U "utf-8" else U "cp1252".

(** Modelled from the spec: ezdxf.lldxf.tagger.tag_compiler is missing.
    A tag's value is "never decoded in this core beyond string/bytes": the
    compiler hands on the tags it is given, one for one. *)
Definition tag_compiler (run : list DXFTag * gen_end) : list DXFTag * gen_end :=
  run.

(** Split a text at every LF. *)
Fixpoint lines_from (line : str) (s : str) : list str :=
  match s with
  | [] => [reverse line]
  | c :: r => if c =? 10 then reverse line :: lines_from [] r
              else lines_from (c :: line) r
  end.

Fixpoint tags_of_lines (ls : list str) : res (list DXFTag) :=
  match ls with
  | [] | [[]] => Ok []
  | [_] => Raise (DXFStructureError "Missing value line")
  | c :: v :: r =>
      match int_of_codes c with
      | None => Raise (DXFStructureError "Invalid group code")
      | Some n => ts ← tags_of_lines r; Ok (mkTag n (VStr v) :: ts)
      end
  end.

(** Modelled from the spec: ezdxf.lldxf.extendedtags.ExtendedTags is
    missing.  A tag group is "one entity's worth of group codes": the list
    of its tags, here read from alternating code and value lines. *)
Definition ExtendedTags_from_text (text : str) : res (list DXFTag) :=
  tags_of_lines (lines_from [] text).

Definition tag_text (c : Z) (ts : list DXFTag) : option str :=
  match filter (fun t => code t = c) ts with
  | t :: _ => match value t with VStr s => Some s | VBytes _ => None end
  | [] => None
  end.

Definition tag_int (c : Z) (ts : list DXFTag) : Z :=
  default 0 (tag_text c ts ≫= int_of_codes).

(** Modelled from the spec: ezdxf.entities.factory.EntityFactory is
    missing.  "Given a compiled tag group for a supported type name,
    returns a constructed logical-entity value or fails with a construction
    error."  The type name is the value of the leading code 0 tag, the
    paperspace flag is group code 67 and the attributes-follow flag is
    group code 66. *)
Definition factory_entity (xtags : list DXFTag) : res DXFEntity :=
  match xtags with
  | mkTag 0 (VStr name) :: _ =>
      Ok {| dxftype := name;
            dxf_tags := xtags;
            paperspace := tag_int 67 xtags;
            attribs_follow := bool_decide (tag_int 66 xtags = 1);
            xdata := None;
            appdata := None;
            extension_dict := None;
            reactors := None;
            linked := [];
            seqend := None |}
  | _ => Raise (ConstructionError "no record type")
  end.

(** Modelled from the spec: ezdxf.entities.dxfgfx.entity_linker is
    missing.  "State machine: Idle, Accumulating(primary, dependents);
    to Idle on terminator or on encountering a new primary; the transition
    Idle to Accumulating occurs only for dependent-capable primary types."
    Dependents of a POLYLINE are VERTEX records, dependents of an INSERT are
    ATTRIB records, and SEQEND is the terminator. *)
Inductive linker :=
| Idle
| Accumulating (primary : nat) (dependent : str).

Definition attach (child : DXFEntity) (e : DXFEntity) : DXFEntity :=
  {| dxftype := dxftype e; dxf_tags := dxf_tags e; paperspace := paperspace e;
     attribs_follow := attribs_follow e; xdata := xdata e; appdata := appdata e;
     extension_dict := extension_dict e; reactors := reactors e;
     linked := linked e ++ [child]; seqend := seqend e |}.

Definition terminate (child : DXFEntity) (e : DXFEntity) : DXFEntity :=
  {| dxftype := dxftype e; dxf_tags := dxf_tags e; paperspace := paperspace e;
     attribs_follow := attribs_follow e; xdata := xdata e; appdata := appdata e;
     extension_dict := extension_dict e; reactors := reactors e;
     linked := linked e; seqend := Some child |}.

Definition start (ty : str) (r : nat) : linker :=
  if bool_decide (ty = U "POLYLINE") then Accumulating r (U "VERTEX")
  else if bool_decide (ty = U "INSERT") then Accumulating r (U "ATTRIB")
  else Idle.

Definition linked_entity (lk : linker) (st : store) (r : nat)
  : bool * linker * store :=
  let entity := st !!! r in
  let ty := dxftype entity in
  match lk with
  | Accumulating primary dependent =>
      if bool_decide (ty = U "SEQEND")
      then (true, Idle, alter (terminate entity) primary st)
      else if bool_decide (ty = dependent)
           then (true, lk, alter (attach entity) primary st)
           else (false, start ty r, st)
  | Idle => (false, start ty r, st)
  end.

Definition pad3 (s : str) : str := replicate (3 - length s) 32 ++ s.

Definition tag_line (t : DXFTag) : res str :=
  match value t with
  | VStr v => Ok (pad3 (U (pretty (code t))) ++ [10] ++ v ++ [10])
  | VBytes _ => Raise ValueError
  end.

Fixpoint tag_lines (ts : list DXFTag) : res str :=
  match ts with
  | [] => Ok []
  | t :: r => a ← tag_line t; b ← tag_lines r; Ok (a ++ b)
  end.

(** Modelled from the spec: [DXFGraphic.export_dxf] and
    ezdxf.lldxf.tagwriter.TagWriter are missing.  Serialization runs the
    tag stream in reverse: one code line and one value line per tag of the
    record itself. *)
Definition export_dxf (dxfversion : str) (entity : DXFEntity) : res str :=
  tag_lines (dxf_tags entity).

(** The state of the index scan. *)
Record scan := mkScan {
  sc_index : list IndexEntry;
  sc_prev_code : Z;
  sc_prev_value : bytes;
  sc_fetch : header_var;
  sc_version : str;
  sc_encoding : str
}.

Definition bytes_of (v : tagvalue) : bytes :=
  match v with VBytes b => b | VStr _ => [] end.

Definition scan_step (loc : Z) (s : scan) (tag : DXFTag) : res scan :=
  let c := code tag in
  let v := bytes_of (value tag) in
  name ← decode (sc_encoding s) v;
  if c =? 0 then
    Ok (mkScan (sc_index s ++ [mkEntry 0 name loc]) c v NoVar
               (sc_version s) (sc_encoding s))
  else if (c =? 2) && (sc_prev_code s =? 0)
          && bool_decide (sc_prev_value s = B "SECTION") then
    Ok (mkScan (sc_index s ++ [mkEntry 2 name loc]) c v NoVar
               (sc_version s) (sc_encoding s))
  else if (c =? 9) && bool_decide (v = B "$DWGCODEPAGE") then
    Ok (mkScan (sc_index s) c v ENCODING (sc_version s) (sc_encoding s))
  else if (c =? 9) && bool_decide (v = B "$ACADVERSION") then
    Ok (mkScan (sc_index s) c v VERSION (sc_version s) (sc_encoding s))
  else
    match sc_fetch s with
    | ENCODING => Ok (mkScan (sc_index s) c v NoVar (sc_version s) (toencoding name))
    | VERSION => Ok (mkScan (sc_index s) c v NoVar name (sc_encoding s))
    | NoVar => Ok (mkScan (sc_index s) c v NoVar (sc_version s) (sc_encoding s))
    end.

(** One forward pass over the raw tags, up to the end-of-file marker.
    [before] is the stream in front of the next tag: what is missing from
    the [size] bytes of the file is the tag's offset. *)
Fixpoint scan_tags (size : nat) (ts : list (DXFTag * BinaryIO)) (e : gen_end)
    (before : BinaryIO) (s : scan) : res scan :=
  match ts with
  | [] =>
      match e with
      | GenStop => Ok s
      | GenRaise x => Raise x
      end
  | (tag, after) :: ts' =>
      s' ← scan_step (Z.of_nat (size - length (buf before))) s tag;
      if (code tag =? 0) && bool_decide (value tag = VBytes (B "EOF"))
      then Ok s'
      else scan_tags size ts' e after s'
  end.

(** Modelled from the spec: ezdxf.lldxf.fileindex.load is missing.  "Single
    forward pass over the tokenizer (raw-byte mode)" that records an entry
    with its byte offset for every code 0 tag and for the code 2 tag right
    after a SECTION, and reads the version and the codepage from the header
    variables on the way, with cp1252 and AC1009 as the legacy defaults.
    The header variables are looked up under the names the single-pass
    iterator uses. *)
Definition fileindex_load (data : bytes) : res FileStructure :=
  let stream := open_stream data in
  match tags_of None stream with
  | None => Raise OSError
  | Some (ts, e, _) =>
      s ← scan_tags (length data) ts e stream
                    (mkScan [] (-1) [] NoVar (U "AC1009") (U "cp1252"));
      Ok {| index := sc_index s; version := sc_version s; encoding := sc_encoding s |}
  end.

End SpecModel.

#[global] Instance spec_collaborators : Collaborators := {|
  toencoding := SpecModel.toencoding;
  fileindex_load := SpecModel.fileindex_load;
  tag_compiler := SpecModel.tag_compiler;
  ExtendedTags := list DXFTag;
  ExtendedTags_init := Ok;
  ExtendedTags_from_text := SpecModel.ExtendedTags_from_text;
  factory_entity := SpecModel.factory_entity;
  linker := SpecModel.linker;
  entity_linker := SpecModel.Idle;
  linked_entity := SpecModel.linked_entity;
  export_dxf := SpecModel.export_dxf
|}.

(** ** Tags as they stand in a file *)

(** The tag [binary_tagger] makes of a code and the bytes of a value line:
    decoded when an encoding was given, raw otherwise. *)
Definition tag_of `{Codecs} (encoding : option str) (c : Z) (v : bytes) : res DXFTag :=
  match encoding with
  | Some ((_ :: _) as enc) => s ← decode enc v; Ok (mkTag c (VStr s))
  | _ => Ok (mkTag c (VBytes v))
  end.

(** A code line and a value line, without their line ends, that read as
    the code [c] and as themselves: no LF inside, an integer in range on the
    code line, no CR or LF at the end of the value. *)
Definition well_formed_lines (eol : bytes) (t : Z * bytes * bytes) : Prop :=
  let '(c, code_line, v) := t in
  (LF ∉ code_line) ∧ int (code_line ++ eol) = Some c ∧ 0 ≤ c ≤ 1071
  ∧ (LF ∉ v) ∧ rstrip_crlf v = v.

(** The bytes of a sequence of tags, every line ended by [eol]. *)
Definition tag_stream (eol : bytes) (ts : list (Z * bytes * bytes)) : bytes :=
  concat ((fun '(_, code_line, v) => code_line ++ eol ++ v ++ eol) <$> ts).

(** ** The tags the single-pass iterator looks at *)

Section HeaderTags.
Context `{Codecs} `{Collaborators}.

(** The tags in front of the first ENDSEC: those the first loop of
    [single_pass_modelspace] handles. *)
Fixpoint header_tags (ts : list (DXFTag * BinaryIO)) : list DXFTag :=
  match ts with
  | [] => []
  | (tag, _) :: ts' =>
      if (code tag =? 0) && bool_decide (value tag = VBytes (B "ENDSEC"))
      then [] else tag :: header_tags ts'
  end.

(** The body of the first loop run over a list of tags. *)
Fixpoint header_steps (tags : list DXFTag) (st : header_state) : res header_state :=
  match tags with
  | [] => Ok st
  | tag :: tags' => st' ← header_step st tag; header_steps tags' st'
  end.

(** The names of the sections a list of tags opens, as the second loop
    recognizes them: the values of the code 2 tags that follow a tag
    0/SECTION.  [prev] is the tag in front of the list. *)
Fixpoint section_names (prev : DXFTag) (ts : list DXFTag) : list tagvalue :=
  match ts with
  | [] => []
  | tag :: ts' =>
      if (code tag =? 2) && (code prev =? 0)
         && bool_decide (value prev = VStr (U "SECTION"))
      then value tag :: section_names tag ts'
      else section_names tag ts'
  end.

(** The tags that name the two header variables. *)
Definition names_codepage (tag : DXFTag) : Prop :=
  code tag = 9 ∧ value tag = VBytes (B "$DWGCODEPAGE").

Definition names_version (tag : DXFTag) : Prop :=
  code tag = 9 ∧ value tag = VBytes (B "$ACADVERSION").

#[global] Instance names_codepage_dec (tag : DXFTag) : Decision (names_codepage tag).
Proof. unfold names_codepage. apply _. Defined.

#[global] Instance names_version_dec (tag : DXFTag) : Decision (names_version tag).
Proof. unfold names_version. apply _. Defined.

End HeaderTags.

(** ** Records by their byte spans, and a run of the exporter *)

Section Spans.
Context `{Codecs} `{Collaborators}.

(** The bytes of a file from offset [a] up to offset [b]. *)
Definition slice (data : bytes) (a b : Z) : bytes :=
  take (Z.to_nat (b - a)) (drop (Z.to_nat a) data).

(** The entity made of the bytes of one record (lines 133-134). *)
Definition entity_of (self : IterDXF) (data : bytes) : res DXFEntity :=
  text ← to_str self data;
  xtags ← ExtendedTags_from_text text;
  factory_entity xtags.

(** The entities of the supported records among the index entries [entry],
    [rest], each made of the bytes between its offset and the next one, up
    to the first ENDSEC. *)
Fixpoint records_between (self : IterDXF) (data : bytes)
    (entry : IndexEntry) (rest : list IndexEntry) : list DXFEntity * gen_end :=
  if bool_decide (ie_value entry = U "ENDSEC") then ([], GenStop)
  else
    match rest with
    | [] => ([], GenRaise IndexError)
    | next_entry :: rest' =>
        if bool_decide (ie_value entry ∈ SUPPORTED_DXF_TYPES) then
          match entity_of self (slice data (location entry) (location next_entry)) with
          | Raise e => ([], GenRaise e)
          | Ok entity =>
              let '(es, e) := records_between self data next_entry rest' in
              (entity :: es, e)
          end
        else records_between self data next_entry rest'
    end.

(** The bytes [write] appends for an entity. *)
Definition record_bytes (loader : IterDXF) (entity : DXFEntity) : res bytes :=
  match export_entity (IterDXF_dxfversion loader) (remove_dependencies entity) with
  | (Ok _, text) => encode (IterDXF_encoding loader) text
  | (Raise e, _) => Raise e
  end.

(** [for entity in entities: exporter.write(entity)] *)
Fixpoint write_all (loader : IterDXF) (self : IterDXFWriter) (es : list DXFEntity)
  : res unit * IterDXFWriter :=
  match es with
  | [] => (Ok (), self)
  | entity :: es' =>
      match IterDXFWriter_write loader self entity with
      | (Ok _, self', _) => write_all loader self' es'
      | (Raise e, self', _) => (Raise e, self')
      end
  end.

End Spans.

(** ** Sample drawings *)

(** The lines of a file, each ended by LF. *)
Definition dxf_lines (lines : list bytes) : bytes :=
  concat ((fun l => l ++ [LF]) <$> lines).

Definition dxf (lines : list string) : bytes := dxf_lines (B <$> lines).

Module Samples.

Definition header : list string :=
  ["0"; "SECTION"; "2"; "HEADER"; "9"; "$ACADVERSION"; "1"; "AC1009";
   "0"; "ENDSEC"].

Definition modern_header : list string :=
  ["0"; "SECTION"; "2"; "HEADER"; "9"; "$ACADVERSION"; "1"; "AC1015";
   "0"; "ENDSEC"].

(** A LINE, a POLYLINE with two vertices and a CIRCLE. *)
Definition drawing : bytes :=
  dxf (header ++
       ["0"; "SECTION"; "2"; "ENTITIES";
        "0"; "LINE"; "8"; "0";
        "0"; "POLYLINE"; "8"; "0";
        "0"; "VERTEX"; "8"; "0";
        "0"; "VERTEX"; "8"; "1";
        "0"; "SEQEND";
        "0"; "CIRCLE"; "8"; "0";
        "0"; "ENDSEC";
        "0"; "EOF"]).

(** The same drawing cut off inside its ENTITIES section. *)
Definition truncated : bytes :=
  dxf (header ++
       ["0"; "SECTION"; "2"; "ENTITIES";
        "0"; "LINE"; "8"; "0";
        "0"; "CIRCLE"; "8"; "0"]).

(** Two entities, and the same with a record in between. *)
Definition two_entities (between : list string) : bytes :=
  dxf (header ++
       ["0"; "SECTION"; "2"; "ENTITIES";
        "0"; "LINE"; "8"; "0"] ++ between ++
       ["0"; "CIRCLE"; "8"; "0";
        "0"; "ARC"; "8"; "0";
        "0"; "ENDSEC";
        "0"; "EOF"]).

(** A drawing without an ENTITIES section. *)
Definition no_entities : bytes :=
  dxf (header ++ ["0"; "SECTION"; "2"; "TABLES"; "0"; "ENDSEC"; "0"; "EOF"]).

(** A drawing of a version after AC1009 whose text holds the two bytes of
    the UTF-8 form of U+00E9. *)
Definition modern_text : bytes :=
  dxf_lines ((B <$> modern_header ++
                    ["0"; "SECTION"; "2"; "ENTITIES"; "0"; "TEXT"; "1"])
             ++ [B "caf" ++ ["195"%byte; "169"%byte]]
             ++ (B <$> ["0"; "LINE"; "8"; "0"; "0"; "ENDSEC"; "0"; "EOF"])).

(** Drawings of a version after AC1009 with an OBJECTS section, one closed
    by ENDSEC and one not. *)
Definition with_objects (end_of_objects : list string) : bytes :=
  dxf (modern_header ++
       ["0"; "SECTION"; "2"; "ENTITIES"; "0"; "LINE"; "8"; "0"; "0"; "ENDSEC";
        "0"; "SECTION"; "2"; "OBJECTS"; "0"; "DICTIONARY"; "5"; "C"]
       ++ end_of_objects ++ ["0"; "EOF"]).

Definition entity (name : string) (tags : list DXFTag) (follow : bool)
    (children : list DXFEntity) (term : option DXFEntity) : DXFEntity :=
  {| dxftype := U name;
     dxf_tags := mkTag 0 (VStr (U name)) :: tags;
     paperspace := 0;
     attribs_follow := follow;
     xdata := Some [mkTag 1001 (VStr (U "ACAD"))];
     appdata := None;
     extension_dict := None;
     reactors := Some [U "1F"];
     linked := children;
     seqend := term |}.

Definition SEQEND : DXFEntity := entity "SEQEND" [] false [] None.
Definition ATTRIB : DXFEntity :=
  entity "ATTRIB" [mkTag 2 (VStr (U "TAG"))] false [] None.

(** An INSERT that carries an attribute and a terminator but does not set
    its [attribs_follow] flag, and one that sets it. *)
Definition INSERT (follow : bool) : DXFEntity :=
  entity "INSERT" [mkTag 2 (VStr (U "BLOCK"))] follow [ATTRIB] (Some SEQEND).

(** The object [opendxf] returns for a file it accepts. *)
Definition opened (data : bytes) : IterDXF :=
  match opendxf data with
  | Ok doc => doc
  | Raise _ => {| structure := mkStructure [] [] []; sections := ∅; file := open_rb [] |}
  end.


(** The stream behind the HEADER section. *)
Definition behind_header (data : bytes) : BinaryIO :=
  match header_of (open_stream data) with
  | Some (Ok (_, stream)) => stream
  | _ => open_stream []
  end.

(** The header variables the first loop of the single-pass iterator
    finds. *)
Definition scanned (data : bytes) : option header_state :=
  match header_of (open_stream data) with
  | Some (Ok (hd, _)) => Some hd
  | _ => None
  end.


Definition legacy_header : header_state := mkHeader NoVar (U "cp1252") (U "AC1009").

Definition tag (c : Z) (v : string) : DXFTag := mkTag c (VStr (U v)).

(** The index [fileindex.load] builds for a file it can scan. *)
Definition loaded (data : bytes) : FileStructure :=
  match fileindex_load data with
  | Ok fs => fs
  | Raise _ => mkStructure [] [] []
  end.

Definition entry (name : string) (offset : Z) : IndexEntry :=
  mkEntry 0 (U name) offset.

(** The second loop of the single-pass iterator after the first record of
    [two_entities]. *)
Definition after_line : loop_state :=
  mkLoop (U "cp1252") 2 (VStr (U "ENTITIES")) (Some (VStr (U "LINE"))) None
         [tag 0 "LINE"; tag 8 "0"] true [] entity_linker [].

(** A drawing whose ENTITIES section is not closed by ENDSEC. *)
Definition unclosed : bytes :=
  dxf (header ++
       ["0"; "SECTION"; "2"; "ENTITIES";
        "0"; "LINE"; "8"; "0";
        "0"; "CIRCLE"; "8"; "0";
        "0"; "EOF"]).

(** A drawing with a single entity. *)
Definition single_line : bytes :=
  dxf (header ++
       ["0"; "SECTION"; "2"; "ENTITIES"; "0"; "LINE"; "8"; "0";
        "0"; "ENDSEC"; "0"; "EOF"]).

(** A header that names its codepage, and no more. *)
Definition codepage_header : bytes :=
  dxf ["0"; "SECTION"; "2"; "HEADER"; "9"; "$DWGCODEPAGE"; "3"; "UTF-8";
       "0"; "ENDSEC"].

(** A header without variables. *)
Definition bare_header : bytes :=
  dxf ["0"; "SECTION"; "2"; "HEADER"; "0"; "ENDSEC"].

(** A drawing that starts with its ENTITIES section. *)
Definition headerless : bytes :=
  dxf ["0"; "SECTION"; "2"; "ENTITIES"; "0"; "LINE"; "8"; "0";
       "0"; "ENDSEC"; "0"; "EOF"].

(** A POLYLINE that has a vertex and no terminator. *)
Definition open_polyline : DXFEntity :=
  entity "POLYLINE" [] false [entity "VERTEX" [] false [] None] None.

Definition raw (c : Z) (v : string) : DXFTag := mkTag c (VBytes (B v)).

(** The writer [export] returns for an object it can export, and the object
    it leaves behind. *)
Definition exported (self : IterDXF) : IterDXFWriter :=
  match (IterDXF_export self).1 with
  | Ok doc => doc
  | Raise _ => IterDXFWriter_init
  end.

Definition after_export (self : IterDXF) : IterDXF := (IterDXF_export self).2.

End Samples.

(** * Properties *)

(** ** The tag tokenizer *)

Section TaggerProperties.
Context `{Codecs}.

Lemma split_line_app (l line rest : bytes) :
  split_line l = (line, rest) → l = line ++ rest.
Proof.
  revert line rest. induction l as [|c l IH]; intros line rest; simpl.
  - intros [= <- <-]. reflexivity.
  - case_bool_decide.
    + intros [= <- <-]. reflexivity.
    + destruct (split_line l) as [line' rest'] eqn:E. intros [= <- <-].
      simpl. f_equal. apply IH. reflexivity.
Qed.

Lemma int_nil : int [] = None.
Proof. reflexivity. Qed.

(** A read that succeeds returns a prefix of the buffer and leaves the rest. *)
Lemma readline_ok (f f' : BinaryIO) (line : bytes) :
  readline f = (Ok line, f') →
  buf f = line ++ buf f' ∧ closed f' = false
  ∧ (fail_in f = None → fail_in f' = None).
Proof.
  unfold readline. destruct (closed f); [discriminate|].
  destruct (fail_in f) as [[|k]|];
    try discriminate;
    destruct (split_line (buf f)) as [l r] eqn:E;
    intros [= <- <-]; simpl; (split; [apply split_line_app, E|split; [done|]]);
    intros; done.
Qed.

Lemma readline_OSError (f f' : BinaryIO) :
  readline f = (Raise OSError, f') → ∃ n, fail_in f = Some n.
Proof.
  unfold readline. destruct (closed f); [discriminate|].
  destruct (fail_in f) as [[|k]|]; eauto;
    destruct (split_line (buf f)); discriminate.
Qed.

(** A tag is loaded from a non-empty code line. *)
Lemma load_tag_ok (encoding : option str) (f f' : BinaryIO) (t : DXFTag) :
  load_tag encoding f = (Ok t, f') →
  (length (buf f') < length (buf f))%nat
  ∧ (fail_in f = None → fail_in f' = None).
Proof.
  unfold load_tag.
  destruct (readline f) as [[line|e] f1] eqn:E1; [|destruct (is_ValueError e); discriminate].
  destruct (int line) as [c|] eqn:Ei; [|discriminate].
  destruct ((c <? 0) || (1071 <? c)); [discriminate|].
  destruct (readline f1) as [[line2|e] f2] eqn:E2; [|discriminate].
  apply readline_ok in E1 as (Hb1 & _ & Hf1). apply readline_ok in E2 as (Hb2 & _ & Hf2).
  intros Hr. assert (f' = f2) as ->.
  { destruct encoding as [[|? ?]|]; simpl in Hr; [congruence| |congruence].
    destruct (decode _ _); simpl in Hr; congruence. }
  split; [|auto].
  rewrite Hb1, Hb2, !length_app.
  destruct line; [rewrite int_nil in Ei; discriminate|]. simpl. lia.
Qed.

(** Without a scheduled device failure no load ends in an I/O error. *)
Lemma load_tag_OSError (encoding : option str) (f f' : BinaryIO) :
  load_tag encoding f = (Raise OSError, f') → ∃ n, fail_in f = Some n.
Proof.
  unfold load_tag.
  destruct (readline f) as [[line|e] f1] eqn:E1.
  - destruct (int line) as [c|]; [|discriminate].
    destruct ((c <? 0) || (1071 <? c)); [discriminate|].
    destruct (readline f1) as [[line2|e] f2] eqn:E2.
    + intros Hr. exfalso.
      destruct encoding as [[|? ?]|]; simpl in Hr; try discriminate.
      destruct (decode _ _) as [s|x] eqn:Ed; simpl in Hr; [discriminate|].
      injection Hr as -> _. exact (decode_not_OSError _ _ Ed).
    + intros [= -> ->]. apply readline_OSError in E2 as [n Hn].
      apply readline_ok in E1 as (_ & _ & Hf).
      destruct (fail_in f); [eauto|]. rewrite Hf in Hn; done.
  - destruct (is_ValueError e) eqn:Ev; [discriminate|].
    intros [= -> ->]. eapply readline_OSError, E1.
Qed.

(** The fuel of [tags_of] reaches the end of every stream. *)
Lemma tagger_run_total (fuel : nat) :
  ∀ g f, (length (buf f) < fuel)%nat → is_Some (tagger_run fuel g f).
Proof.
  induction fuel as [|fuel IH]; intros g f Hlen; [lia|].
  simpl. unfold tagger_next. destruct (finished g); [eauto|].
  destruct (load_tag (t_encoding g) f) as [[t|e] f'] eqn:E.
  - apply load_tag_ok in E as [Hlt _].
    destruct (IH g f' ltac:(lia)) as [[[ts e] fe] ->]. simpl. eauto.
  - destruct e; eauto.
Qed.

Lemma tags_of_total (encoding : option str) (f : BinaryIO) :
  is_Some (tags_of encoding f).
Proof. apply tagger_run_total. lia. Qed.

(** A run on a stream without device failure ends with an exception. *)
Lemma tagger_run_raises (fuel : nat) :
  ∀ g f ts e fe,
    finished g = false → fail_in f = None →
    tagger_run fuel g f = Some (ts, e, fe) → ∃ x, e = GenRaise x.
Proof.
  induction fuel as [|fuel IH]; intros g f ts e fe Hg Hf; [discriminate|].
  simpl. unfold tagger_next. rewrite Hg.
  destruct (load_tag (t_encoding g) f) as [[t|x] f'] eqn:E.
  - apply load_tag_ok in E as [_ Hf'].
    destruct (tagger_run fuel g f') as [[[ts' e'] fe']|] eqn:Er; simpl; [|discriminate].
    intros [= <- <- <-]. exact (IH g f' ts' e' fe' Hg (Hf' Hf) Er).
  - destruct x; intros [= <- <- <-]; eauto.
    apply load_tag_OSError in E as [n Hn]. congruence.
Qed.

(** C8: a code line that is not an integer, or an integer outside
    [0, 1071], makes [binary_tagger] raise [DXFStructureError]; the generator
    is finished by it, so that every later [next] on it, on whatever is left
    of the stream, stops without a tag. *)
Theorem binary_tagger_malformed_code (g : tagger) (file file1 : BinaryIO)
    (line : bytes) :
  finished g = false →
  readline file = (Ok line, file1) →
  (int line = None ∨ ∃ c, int line = Some c ∧ (c < 0 ∨ 1071 < c)) →
  (∃ msg, tagger_next g file = (Throw (DXFStructureError msg), done g, file1))
  ∧ (∀ file', tagger_next (done g) file' = (StopIteration, done g, file'))
  ∧ (∀ fuel file', tagger_run (S fuel) (done g) file' = Some ([], GenStop, file')).
Proof.
  intros Hg Hread Hbad. split; [|split].
  - unfold tagger_next, load_tag. rewrite Hg, Hread.
    destruct Hbad as [-> | (c & -> & Hc)]; [eauto|].
    replace ((c <? 0) || (1071 <? c)) with true; [eauto|].
    symmetry. apply orb_true_iff. rewrite !Z.ltb_lt. exact Hc.
  - reflexivity.
  - reflexivity.
Qed.

(** C10: at the end of the input the code line read is empty and
    [binary_tagger] raises [DXFStructureError('Invalid group code')]; on a
    stream whose reads never fail the run of the generator therefore ends
    with an exception, and a run that ends by returning has met an I/O
    error on a read. *)
Theorem binary_tagger_end_of_input (encoding : option str) (file : BinaryIO) :
  (∀ file1, readline file = (Ok [], file1) →
     tagger_next (binary_tagger encoding) file
     = (Throw (DXFStructureError "Invalid group code"),
        done (binary_tagger encoding), file1))
  ∧ (fail_in file = None →
     ∃ ts x fe, tags_of encoding file = Some (ts, GenRaise x, fe))
  ∧ (∀ ts fe, tags_of encoding file = Some (ts, GenStop, fe) →
     ∃ n, fail_in file = Some n)
  ∧ (∀ f', load_tag encoding file = (Raise OSError, f') →
     tagger_next (binary_tagger encoding) file
     = (StopIteration, done (binary_tagger encoding), f')).
Proof.
  split; [|split; [|split]].
  - intros file1 Hread. unfold tagger_next, load_tag. simpl. rewrite Hread.
    reflexivity.
  - intros Hf. destruct (tags_of_total encoding file) as [[[ts e] fe] Hr].
    destruct (tagger_run_raises _ (binary_tagger encoding) _ _ _ _ eq_refl Hf Hr)
      as [x ->]. eauto.
  - intros ts fe Hr. destruct (fail_in file) as [n|] eqn:Hf; [eauto|].
    destruct (tagger_run_raises _ (binary_tagger encoding) _ _ _ _ eq_refl Hf Hr)
      as [x Hx]. discriminate.
  - intros f' Hl. unfold tagger_next. simpl. rewrite Hl. reflexivity.
Qed.

End TaggerProperties.

(** ** The indexed iterator and the exporter *)

Section IterdxfProperties.
Context `{Codecs} `{Collaborators}.

(** A section name that no code 2 entry carries is not in the map. *)
Lemma index_step_lookup_none (k : str) (idx : list IndexEntry) :
  Forall (fun e => ¬ (ie_code e = 2 ∧ ie_value e = k)) idx →
  ∀ acc : list IndexEntry * gmap str Z,
    acc.2 !! k = None → (foldl index_step acc idx).2 !! k = None.
Proof.
  induction 1 as [|e idx He _ IH]; intros [new_index sections] Hacc; [exact Hacc|].
  simpl. apply IH. unfold index_step.
  destruct (ie_code e =? 0) eqn:E0; [exact Hacc|].
  destruct (ie_code e =? 2) eqn:E2; [|exact Hacc].
  simpl. rewrite lookup_insert_ne; [exact Hacc|].
  intros Hk. apply He. split; [lia | exact Hk].
Qed.

Lemma load_index_eq (name : bytes) (fs : FileStructure) :
  fileindex_load name = Ok fs →
  _load_index name =
  Ok ({| index := (foldl index_step ([], ∅) (index fs)).1;
         version := version fs; encoding := encoding fs |},
      (foldl index_step ([], ∅) (index fs)).2).
Proof.
  intros Hl. unfold _load_index. rewrite Hl. simpl.
  destruct (foldl index_step _ _). reflexivity.
Qed.

(** C3: opening fails with a structure error before any entity is yielded
    when the section map built from the index lacks ENTITIES, and when the
    version is newer than AC1009 and the map lacks OBJECTS; a source whose
    index has no section entry named ENTITIES yields no entity. *)
Theorem opendxf_missing_section (name : bytes) (fs : FileStructure) :
  fileindex_load name = Ok fs →
  let sections := (foldl index_step ([], ∅) (index fs)).2 in
  (sections !! U "ENTITIES" = None →
     opendxf name = Raise (DXFStructureError "ENTITIES section not found.")
     ∧ modelspace_of name
       = ([], GenRaise (DXFStructureError "ENTITIES section not found.")))
  ∧ (str_gt (version fs) (U "AC1009") = true → sections !! U "OBJECTS" = None →
     ∃ msg, opendxf name = Raise (DXFStructureError msg)
            ∧ modelspace_of name = ([], GenRaise (DXFStructureError msg)))
  ∧ (Forall (fun e => ¬ (ie_code e = 2 ∧ ie_value e = U "ENTITIES")) (index fs) →
     modelspace_of name
     = ([], GenRaise (DXFStructureError "ENTITIES section not found."))).
Proof.
  intros Hl sections.
  assert (Hno : sections !! U "ENTITIES" = None →
     opendxf name = Raise (DXFStructureError "ENTITIES section not found.")).
  { intros Hs. unfold opendxf, IterDXF_init. rewrite (load_index_eq _ _ Hl). simpl.
    fold sections. rewrite bool_decide_eq_true_2; [reflexivity | exact Hs]. }
  split; [|split].
  - intros Hs. split; [auto|]. unfold modelspace_of. rewrite (Hno Hs). reflexivity.
  - intros Hv Ho.
    assert (∃ msg, opendxf name = Raise (DXFStructureError msg)) as [msg Hm].
    { unfold opendxf, IterDXF_init. rewrite (load_index_eq _ _ Hl). simpl.
      fold sections. case_bool_decide; [eauto|]. rewrite Hv. simpl.
      rewrite bool_decide_eq_true_2; [eauto | exact Ho]. }
    exists msg. split; [exact Hm|]. unfold modelspace_of. rewrite Hm. reflexivity.
  - intros Hall. unfold modelspace_of. rewrite Hno; [reflexivity|].
    apply index_step_lookup_none; [exact Hall | apply lookup_empty].
Qed.

Lemma seek_ok (f : File) (offset : Z) :
  file_closed f = false → 0 ≤ offset →
  seek f offset
  = (Ok (), {| content := content f; pos := Z.to_nat offset; file_closed := false |}).
Proof.
  intros Hc Ho. unfold seek. rewrite Hc.
  destruct (offset <? 0) eqn:E; [lia | reflexivity].
Qed.

Lemma read_ok (f : File) (n : Z) :
  file_closed f = false → 0 ≤ n →
  read f n
  = (Ok (take (Z.to_nat n) (drop (pos f) (content f))),
     {| content := content f;
        pos := (pos f + length (take (Z.to_nat n) (drop (pos f) (content f))))%nat;
        file_closed := false |}).
Proof.
  intros Hc Hn. unfold read. rewrite Hc.
  destruct (n <? -1) eqn:E1; [lia|]. destruct (n =? -1) eqn:E2; [lia | reflexivity].
Qed.

(** C6: [export] writes to the new file the bytes of the source from
    offset 0 up to, and without, the offset of the index entry that follows
    the ENTITIES section entry. *)
Theorem export_copies_prefix (self : IterDXF) (sec : Z) (entry : IndexEntry) :
  file_closed (file self) = false →
  sections self !! U "ENTITIES" = Some sec →
  getitem (index (structure self)) (sec + 1) = Ok entry →
  0 ≤ location entry →
  ∃ doc self',
    IterDXF_export self = (Ok doc, self')
    ∧ written (out_file doc)
      = take (Z.to_nat (location entry)) (content (file self))
    ∧ out_closed (out_file doc) = false
    ∧ content (file self') = content (file self).
Proof.
  intros Hc Hsec Hget Hloc. unfold IterDXF_export.
  rewrite Hsec, Hget, (seek_ok _ _ Hc); [|lia].
  rewrite read_ok; [|reflexivity|exact Hloc]. simpl.
  eexists _, _. split; [reflexivity|]. simpl. rewrite drop_0. auto.
Qed.

Lemma file_write_ok (f : OutFile) (data : bytes) :
  out_closed f = false →
  file_write f data = (Ok (), {| written := written f ++ data; out_closed := false |}).
Proof. intros Hc. unfold file_write. rewrite Hc. reflexivity. Qed.

Lemma find_entry_none (c : Z) (v : str) (l : list IndexEntry) :
  Forall (fun e => ¬ (ie_code e = c ∧ ie_value e = v)) l →
  ∀ i, find_entry c v l i = Raise ValueError.
Proof.
  induction 1 as [|e l He _ IH]; intros i; simpl; [reflexivity|].
  destruct (bool_decide (ie_code e = c)) eqn:E1; simpl; [|apply IH].
  destruct (bool_decide (ie_value e = v)) eqn:E2; simpl; [|apply IH].
  apply bool_decide_eq_true in E1, E2. destruct He; auto.
Qed.

Lemma entries_from_nonneg {A} (l : list A) (start : Z) :
  0 ≤ start → entries_from l start = drop (Z.to_nat start) l.
Proof.
  intros Hs. unfold entries_from. destruct (0 <=? start) eqn:E; [reflexivity | lia].
Qed.

(** Opening looks for the two section names and for nothing else. *)
Lemma opendxf_ok (name : bytes) (fs : FileStructure) :
  fileindex_load name = Ok fs →
  let sections := (foldl index_step ([], ∅) (index fs)).2 in
  sections !! U "ENTITIES" ≠ None → sections !! U "OBJECTS" ≠ None →
  opendxf name
  = Ok {| structure := {| index := (foldl index_step ([], ∅) (index fs)).1;
                          version := version fs; encoding := encoding fs |};
          sections := sections;
          file := open_rb name |}.
Proof.
  intros Hl sections He Ho. unfold opendxf, IterDXF_init.
  rewrite (load_index_eq _ _ Hl). simpl. fold sections.
  rewrite bool_decide_eq_false_2 by exact He.
  rewrite (bool_decide_eq_false_2 _ Ho), andb_false_r. reflexivity.
Qed.

(** C5: [close] writes the ENDSEC of the ENTITIES section, then, exactly
    when the version is newer than AC1009, the bytes of the source from the
    start of its OBJECTS section to the entry after that section's ENDSEC,
    then the end-of-file marker, and closes the file.  When the index has
    no ENDSEC at or after the OBJECTS entry, [close] raises after the first
    marker is written; opening the source did not look for it. *)
Theorem close_writes_in_order (loader : IterDXF) (self : IterDXFWriter) :
  out_closed (out_file self) = false →
  let idx := index (structure loader) in
  let newer := str_gt (IterDXF_dxfversion loader) (U "AC1009") in
  (newer = false →
     IterDXFWriter_close loader self
     = (Ok (),
        {| out_file := {| written := written (out_file self)
                                     ++ ENDSEC_marker ++ EOF_marker;
                          out_closed := true |};
           text := text self |},
        loader))
  ∧ (∀ start end_index first last,
       newer = true →
       sections loader !! U "OBJECTS" = Some start →
       FileStructure_get (structure loader) 0 (U "ENDSEC") start = Ok end_index →
       getitem idx start = Ok first →
       getitem idx (end_index + 1) = Ok last →
       file_closed (file loader) = false →
       0 ≤ location first ≤ location last →
       ∃ loader',
         IterDXFWriter_close loader self
         = (Ok (),
            {| out_file :=
                 {| written :=
                      written (out_file self) ++ ENDSEC_marker
                      ++ take (Z.to_nat (location last - location first))
                              (drop (Z.to_nat (location first))
                                    (content (file loader)))
                      ++ EOF_marker;
                    out_closed := true |};
               text := text self |},
            loader'))
  ∧ (∀ start,
       newer = true →
       sections loader !! U "OBJECTS" = Some start →
       0 ≤ start →
       Forall (fun e => ¬ (ie_code e = 0 ∧ ie_value e = U "ENDSEC"))
              (drop (Z.to_nat start) idx) →
       IterDXFWriter_close loader self
       = (Raise (DXFStructureError "ENDSEC of OBJECTS section not found."),
          {| out_file := {| written := written (out_file self) ++ ENDSEC_marker;
                            out_closed := false |};
             text := text self |},
          loader)).
Proof.
  intros Hc idx newer. split; [|split].
  - intros Hn. unfold IterDXFWriter_close. rewrite (file_write_ok _ _ Hc).
    fold newer. rewrite Hn, file_write_ok by reflexivity.
    unfold with_file, out_close. simpl. rewrite <- !app_assoc. reflexivity.
  - intros start end_index first last Hn Hs Hg Hf Hl Hfc [Hlo Hhi].
    unfold IterDXFWriter_close. rewrite (file_write_ok _ _ Hc).
    fold newer. rewrite Hn. unfold IterDXF_copy_objects_section.
    fold idx. rewrite Hs, Hg, Hf, Hl, (seek_ok _ _ Hfc Hlo).
    rewrite read_ok; [|reflexivity|lia]. simpl.
    eexists. unfold with_file, out_close. simpl. rewrite <- !app_assoc. reflexivity.
  - intros start Hn Hs Hstart Hall.
    unfold IterDXFWriter_close. rewrite (file_write_ok _ _ Hc).
    fold newer. rewrite Hn. unfold IterDXF_copy_objects_section, FileStructure_get.
    rewrite Hs. fold idx. rewrite (entries_from_nonneg _ _ Hstart).
    rewrite (find_entry_none _ _ _ Hall). reflexivity.
Qed.

Lemma export_each_ok (dxfversion : str) (es : list DXFEntity) :
  ∀ ts text, records_text dxfversion es = Ok ts →
    export_each dxfversion es text = (Ok (), text ++ ts).
Proof.
  induction es as [|e es IH]; intros ts text; simpl.
  - intros [= <-]. rewrite app_nil_r. reflexivity.
  - unfold export_to. destruct (export_dxf dxfversion e) as [t|x]; [|discriminate].
    destruct (records_text dxfversion es) as [ts'|x]; [|discriminate].
    simpl. intros [= <-]. rewrite (IH ts' _ eq_refl), <- app_assoc. reflexivity.
Qed.

Lemma export_entity_linked (dxfversion : str) (e s : DXFEntity)
    (primary deps term : str) :
  writes_linked e →
  export_dxf dxfversion e = Ok primary →
  records_text dxfversion (linked e) = Ok deps →
  seqend e = Some s →
  export_dxf dxfversion s = Ok term →
  export_entity dxfversion e = (Ok (), primary ++ deps ++ term).
Proof.
  intros Hw Hp Hd Hs Ht. unfold export_entity, export_to. rewrite Hp. simpl.
  assert (Hseq : export_seqend dxfversion e (primary ++ deps)
                 = (Ok (), primary ++ deps ++ term)).
  { unfold export_seqend, export_to. rewrite Hs, Ht, <- app_assoc. reflexivity. }
  rewrite (export_each_ok _ _ _ _ Hd), Hseq.
  destruct Hw as [Hw | [Hw Ha]].
  - rewrite bool_decide_eq_true_2 by exact Hw. reflexivity.
  - rewrite Ha, (bool_decide_eq_true_2 _ Hw). case_bool_decide; reflexivity.
Qed.

Lemma export_entity_alone (dxfversion : str) (e : DXFEntity) (primary : str) :
  ¬ writes_linked e →
  export_dxf dxfversion e = Ok primary →
  export_entity dxfversion e = (Ok (), primary).
Proof.
  intros Hw Hp. unfold export_entity, export_to. rewrite Hp. simpl.
  case_bool_decide as Hpoly; [destruct Hw; left; exact Hpoly|].
  case_bool_decide as Hins; [|reflexivity].
  destruct (attribs_follow e) eqn:Ha; [|reflexivity].
  destruct Hw. right. auto.
Qed.

(** C4, as the code has it: [write] resets the four dependency fields of
    the entity and appends the encoded text of the primary record, followed
    for a POLYLINE and for an INSERT with [attribs_follow] by its linked
    records in order and its SEQEND; any other entity, an INSERT without
    the flag among them, is written as its primary record alone. *)
Theorem write_appends_record_group (loader : IterDXF) (self : IterDXFWriter)
    (entity : DXFEntity) (primary : str) :
  out_closed (out_file self) = false →
  let e := remove_dependencies entity in
  let dxfversion := IterDXF_dxfversion loader in
  export_dxf dxfversion e = Ok primary →
  (xdata e = None ∧ appdata e = None ∧ extension_dict e = None ∧ reactors e = None)
  ∧ (writes_linked e →
     ∀ deps s term data,
       records_text dxfversion (linked e) = Ok deps →
       seqend e = Some s →
       export_dxf dxfversion s = Ok term →
       encode (IterDXF_encoding loader) (primary ++ deps ++ term) = Ok data →
       IterDXFWriter_write loader self entity
       = (Ok (),
          {| out_file := {| written := written (out_file self) ++ data;
                            out_closed := false |};
             text := primary ++ deps ++ term |},
          e))
  ∧ (¬ writes_linked e →
     ∀ data,
       encode (IterDXF_encoding loader) primary = Ok data →
       IterDXFWriter_write loader self entity
       = (Ok (),
          {| out_file := {| written := written (out_file self) ++ data;
                            out_closed := false |};
             text := primary |},
          e)).
Proof.
  intros Hc e dxfversion Hp. split; [auto|]. split.
  - intros Hw deps s term data Hd Hs Ht He.
    unfold IterDXFWriter_write. fold e dxfversion.
    rewrite (export_entity_linked _ _ _ _ _ _ Hw Hp Hd Hs Ht).
    rewrite He, (file_write_ok _ _ Hc). reflexivity.
  - intros Hw data He.
    unfold IterDXFWriter_write. fold e dxfversion.
    rewrite (export_entity_alone _ _ _ Hw Hp).
    rewrite He, (file_write_ok _ _ Hc). reflexivity.
Qed.

(** *** Skipping records of unsupported types *)


Lemma to_str_encoding (self self' : IterDXF) (data : bytes) :
  IterDXF_encoding self' = IterDXF_encoding self →
  to_str self' data = to_str self data.
Proof. intros He. unfold to_str. rewrite He. reflexivity. Qed.

Lemma load_entities_loop_step (self : IterDXF) (entry next_entry : IndexEntry)
    (rest : list IndexEntry) (f : File) :
  load_entities_loop self entry (next_entry :: rest) f
  = if bool_decide (ie_value entry = U "ENDSEC") then ([], GenStop, f)
    else
      match read f (location next_entry - location entry) with
      | (Raise e, f') => ([], GenRaise e, f')
      | (Ok data, f') =>
          if bool_decide (ie_value entry ∈ SUPPORTED_DXF_TYPES) then
            match (text ← to_str self data;
                   xtags ← ExtendedTags_from_text text;
                   factory_entity xtags) with
            | Raise e => ([], GenRaise e, f')
            | Ok entity =>
                let '(es, e, fe) := load_entities_loop self next_entry rest f' in
                (entity :: es, e, fe)
            end
          else load_entities_loop self next_entry rest f'
      end.
Proof. reflexivity. Qed.






End IterdxfProperties.

(** ** The single-pass iterator *)

Section SinglePassProperties.
Context `{Codecs} `{Collaborators}.

(** The generator always comes to an end. *)
Lemma single_pass_modelspace_total (stream : BinaryIO) :
  is_Some (single_pass_modelspace stream).
Proof.
  unfold single_pass_modelspace, header_of, compiled_tags.
  destruct (tags_of_total None stream) as [[[ts e] fe] ->]. simpl.
  destruct (scan_header _ _ _ _) as [[hd stream']|x]; [|eauto].
  destruct (tags_of_total (Some (h_encoding hd)) stream') as [[[ts2 e2] fe2] ->].
  simpl. destruct (tag_compiler _) as [ts' e']. destruct (entities_loop _ _ _ _). eauto.
Qed.

(** The stream is closed by the generator only when the second loop runs
    out of tags. *)
Lemma single_pass_modelspace_closed (stream : BinaryIO) (r : sp_result) :
  single_pass_modelspace stream = Some r →
  sp_stream_closed r
  = match sp_ending r with SpExhausted => true | _ => closed stream end.
Proof.
  unfold single_pass_modelspace.
  destruct (header_of stream) as [[[hd stream']|x]|]; simpl; [| |discriminate].
  - destruct (compiled_tags _ _) as [[ts e]|]; simpl; [|discriminate].
    destruct (entities_loop _ _ _ _) as [out ending]. intros [= <-]. reflexivity.
  - intros [= <-]. reflexivity.
Qed.

Lemma entities_loop_app (version : str) (pre rest : list DXFTag) (e : gen_end) :
  ∀ s s', loop_prefix version pre s = Some s' →
    entities_loop version (pre ++ rest) e s = entities_loop version rest e s'.
Proof.
  induction pre as [|t pre IH]; intros s s'; simpl.
  - intros [= <-]. reflexivity.
  - destruct (loop_step version s t) as [s1|r]; [apply IH | discriminate].
Qed.




End SinglePassProperties.

(** ** Skip-safety *)

Section SkipSafety.
Context `{Codecs} `{Collaborators}.


End SkipSafety.

(** ** The claims on the sample drawings *)

Section OnSamples.
Import Samples.

Lemma binary_tagger_malformed_code_witness :
  let after_code := {| buf := dxf ["LINE"]; closed := false; fail_in := None |} in
  ((∃ msg, tagger_next (binary_tagger None) (open_stream (dxf ["SECTION"; "LINE"]))
           = (Throw (DXFStructureError msg), done (binary_tagger None), after_code))
   ∧ (∀ file', tagger_next (done (binary_tagger None)) file'
               = (StopIteration, done (binary_tagger None), file'))
   ∧ (∀ fuel file', tagger_run (S fuel) (done (binary_tagger None)) file'
                    = Some ([], GenStop, file')))
  ∧ ((∃ msg, tagger_next (binary_tagger None) (open_stream (dxf ["1072"; "LINE"]))
             = (Throw (DXFStructureError msg), done (binary_tagger None), after_code))
     ∧ (∀ file', tagger_next (done (binary_tagger None)) file'
                 = (StopIteration, done (binary_tagger None), file'))
     ∧ (∀ fuel file', tagger_run (S fuel) (done (binary_tagger None)) file'
                      = Some ([], GenStop, file'))).
Proof.
  split.
  - apply (binary_tagger_malformed_code (binary_tagger None)
             (open_stream (dxf ["SECTION"; "LINE"])) _ (B "SECTION" ++ [LF])).
    + reflexivity.
    + vm_compute. reflexivity.
    + left. vm_compute. reflexivity.
  - apply (binary_tagger_malformed_code (binary_tagger None)
             (open_stream (dxf ["1072"; "LINE"])) _ (B "1072" ++ [LF])).
    + reflexivity.
    + vm_compute. reflexivity.
    + right. exists 1072. split; [vm_compute; reflexivity | lia].
Defined.

Lemma binary_tagger_end_of_input_witness :
  tagger_next (binary_tagger None) (open_stream [])
  = (Throw (DXFStructureError "Invalid group code"), done (binary_tagger None),
     open_stream [])
  ∧ (∃ ts x fe, tags_of None (open_stream (dxf ["0"; "EOF"]))
                = Some (ts, GenRaise x, fe)).
Proof.
  split.
  - apply (binary_tagger_end_of_input None (open_stream [])). reflexivity.
  - apply (binary_tagger_end_of_input None (open_stream (dxf ["0"; "EOF"]))).
    reflexivity.
Defined.

Lemma opendxf_missing_section_witness :
  (opendxf no_entities = Raise (DXFStructureError "ENTITIES section not found.")
   ∧ modelspace_of no_entities
     = ([], GenRaise (DXFStructureError "ENTITIES section not found.")))
  ∧ (∃ msg, opendxf modern_text = Raise (DXFStructureError msg)
            ∧ modelspace_of modern_text = ([], GenRaise (DXFStructureError msg)))
  ∧ modelspace_of no_entities
    = ([], GenRaise (DXFStructureError "ENTITIES section not found.")).
Proof.
  assert (H1 : fileindex_load no_entities = Ok (loaded no_entities))
    by (vm_compute; reflexivity).
  assert (H2 : fileindex_load modern_text = Ok (loaded modern_text))
    by (vm_compute; reflexivity).
  split; [|split].
  - apply (opendxf_missing_section no_entities (loaded no_entities) H1).
    vm_compute. reflexivity.
  - apply (opendxf_missing_section modern_text (loaded modern_text) H2).
    + vm_compute. reflexivity.
    + vm_compute. reflexivity.
  - apply (opendxf_missing_section no_entities (loaded no_entities) H1).
    compute_done.
Defined.

Lemma export_copies_prefix_witness :
  ∃ doc self',
    IterDXF_export (opened drawing) = (Ok doc, self')
    ∧ written (out_file doc) = take 73 drawing
    ∧ out_closed (out_file doc) = false
    ∧ content (file self') = drawing.
Proof.
  apply (export_copies_prefix (opened drawing) 2 (entry "LINE" 73)).
  - reflexivity.
  - vm_compute. reflexivity.
  - vm_compute. reflexivity.
  - simpl. lia.
Defined.

Lemma close_writes_in_order_witness :
  IterDXFWriter_close (opened drawing) IterDXFWriter_init
  = (Ok (),
     {| out_file := {| written := ENDSEC_marker ++ EOF_marker; out_closed := true |};
        text := [] |},
     opened drawing)
  ∧ (∃ loader',
       IterDXFWriter_close (opened (with_objects ["0"; "ENDSEC"])) IterDXFWriter_init
       = (Ok (),
          {| out_file :=
               {| written :=
                    ENDSEC_marker
                    ++ dxf ["0"; "SECTION"; "2"; "OBJECTS"; "0"; "DICTIONARY";
                            "5"; "C"; "0"; "ENDSEC"]
                    ++ EOF_marker;
                  out_closed := true |};
             text := [] |},
          loader'))
  ∧ (opendxf (with_objects []) = Ok (opened (with_objects []))
     ∧ IterDXFWriter_close (opened (with_objects [])) IterDXFWriter_init
       = (Raise (DXFStructureError "ENDSEC of OBJECTS section not found."),
          {| out_file := {| written := ENDSEC_marker; out_closed := false |};
             text := [] |},
          opened (with_objects []))).
Proof.
  split; [|split].
  - apply (close_writes_in_order (opened drawing) IterDXFWriter_init eq_refl).
    vm_compute. reflexivity.
  - destruct (close_writes_in_order (opened (with_objects ["0"; "ENDSEC"]))
                IterDXFWriter_init eq_refl) as (_ & Hcopy & _).
    apply (Hcopy 5 7 (entry "SECTION" 93) (entry "EOF" 139));
      try (vm_compute; reflexivity).
    simpl. lia.
  - split; [vm_compute; reflexivity|].
    destruct (close_writes_in_order (opened (with_objects [])) IterDXFWriter_init
                eq_refl) as (_ & _ & Hmissing).
    apply (Hmissing 5).
    + vm_compute. reflexivity.
    + vm_compute. reflexivity.
    + lia.
    + compute_done.
Defined.

Lemma write_appends_record_group_witness :
  let stripped := remove_dependencies (INSERT true) in
  (xdata stripped = None ∧ appdata stripped = None
   ∧ extension_dict stripped = None ∧ reactors stripped = None)
  ∧ IterDXFWriter_write (opened drawing) IterDXFWriter_init (INSERT true)
    = (Ok (),
       {| out_file :=
            {| written := dxf ["  0"; "INSERT"; "  2"; "BLOCK"; "  0"; "ATTRIB";
                               "  2"; "TAG"; "  0"; "SEQEND"];
               out_closed := false |};
          text := ord <$> dxf ["  0"; "INSERT"; "  2"; "BLOCK"; "  0"; "ATTRIB";
                               "  2"; "TAG"; "  0"; "SEQEND"] |},
       stripped)
  ∧ IterDXFWriter_write (opened drawing) IterDXFWriter_init (INSERT false)
    = (Ok (),
       {| out_file := {| written := dxf ["  0"; "INSERT"; "  2"; "BLOCK"];
                         out_closed := false |};
          text := ord <$> dxf ["  0"; "INSERT"; "  2"; "BLOCK"] |},
       remove_dependencies (INSERT false)).
Proof.
  assert (Hp : ∀ follow,
            export_dxf (IterDXF_dxfversion (opened drawing))
                       (remove_dependencies (INSERT follow))
            = Ok (ord <$> dxf ["  0"; "INSERT"; "  2"; "BLOCK"]))
    by (intros []; vm_compute; reflexivity).
  intros stripped.
  destruct (write_appends_record_group (opened drawing) IterDXFWriter_init
              (INSERT true) _ eq_refl (Hp true)) as (Hstripped & Hlinked & _).
  destruct (write_appends_record_group (opened drawing) IterDXFWriter_init
              (INSERT false) _ eq_refl (Hp false)) as (_ & _ & Halone).
  split; [exact Hstripped|]. split.
  - rewrite (Hlinked ltac:(right; split; reflexivity)
               (ord <$> dxf ["  0"; "ATTRIB"; "  2"; "TAG"])
               SEQEND
               (ord <$> dxf ["  0"; "SEQEND"])
               (dxf ["  0"; "INSERT"; "  2"; "BLOCK"; "  0"; "ATTRIB";
                     "  2"; "TAG"; "  0"; "SEQEND"]));
      try (vm_compute; reflexivity).
  - rewrite (Halone ltac:(intros [Hpoly | [_ Hfollow]]; [revert Hpoly; compute_done
                                                         | discriminate])
               (dxf ["  0"; "INSERT"; "  2"; "BLOCK"]));
      try (vm_compute; reflexivity).
Defined.

(** C4, as the claim words it, fails on an INSERT that does not set
    [attribs_follow]: the record group described for it ends with the
    terminator, and [write] appends the primary record only. *)
Lemma write_insert_without_attribs_follow :
  let loader := opened drawing in
  let e := INSERT false in
  ∃ self' described,
    IterDXFWriter_write loader IterDXFWriter_init e
    = (Ok (), self', remove_dependencies e)
    ∧ (described_record_group (IterDXF_dxfversion loader) (remove_dependencies e)
       ≫= encode (IterDXF_encoding loader)) = Ok described
    ∧ written (out_file self') = dxf ["  0"; "INSERT"; "  2"; "BLOCK"]
    ∧ described = dxf ["  0"; "INSERT"; "  2"; "BLOCK"; "  0"; "ATTRIB";
                       "  2"; "TAG"; "  0"; "SEQEND"]
    ∧ written (out_file self') ≠ described.
Proof.
  eexists _, _. split; [vm_compute; reflexivity|].
  split; [vm_compute; reflexivity|].
  split; [reflexivity|]. split; [reflexivity|]. compute_done.
Qed.



(** C1 on a drawing with a LINE, a POLYLINE and a CIRCLE: the indexed
    iterator yields all three, the single-pass iterator returns at the
    ENDSEC of the section with the last record still pending and yields
    the first two only. *)
Theorem two_mode_divergence :
  dxftype <$> (modelspace_of drawing).1 = [U "LINE"; U "POLYLINE"; U "CIRCLE"]
  ∧ (modelspace_of drawing).2 = GenStop
  ∧ single_pass_modelspace (open_stream drawing)
    = Some {| sp_entities := take 2 (modelspace_of drawing).1;
              sp_ending := SpReturn;
              sp_stream_closed := false |}.
Proof. repeat split; vm_compute; reflexivity. Qed.

(** C2 on a drawing whose header gives version AC1015 and no codepage:
    the header scan falls back to cp1252 and finds the version, the second
    loop sets its local encoding to utf-8 on entering ENTITIES, and the text
    of the entity is still the cp1252 reading of its bytes, two characters
    for the two bytes that are one character in UTF-8. *)
Theorem single_pass_keeps_header_encoding :
  let text := B "caf" ++ ["195"%byte; "169"%byte] in
  scanned modern_text = Some (mkHeader NoVar (U "cp1252") (U "AC1015"))
  ∧ scanned (dxf ["0"; "SECTION"; "2"; "HEADER"; "0"; "ENDSEC"])
    = Some (mkHeader NoVar (U "cp1252") (U "AC1009"))
  ∧ encoding_var
    <$> loop_prefix (U "AC1015") [tag 0 "SECTION"; tag 2 "ENTITIES"]
                    (loop_start (U "cp1252"))
    = Some (U "utf-8")
  ∧ decode (U "utf-8") text = Ok (U "caf" ++ [233])
  ∧ decode (U "cp1252") text = Ok (U "caf" ++ [195; 169])
  ∧ (fun r => dxf_tags <$> sp_entities r)
    <$> single_pass_modelspace (open_stream modern_text)
    = Some [[tag 0 "TEXT"; mkTag 1 (VStr (U "caf" ++ [195; 169]))]].
Proof. repeat split; vm_compute; reflexivity. Qed.

(** C9 on two drawings: when the generator returns at the ENDSEC of the
    ENTITIES section, and when the input ends inside the section and the
    tagger raises, the stream is left open. *)
Theorem single_pass_leaves_stream_open :
  (∃ es, single_pass_modelspace (open_stream drawing)
         = Some {| sp_entities := es; sp_ending := SpReturn;
                   sp_stream_closed := false |})
  ∧ (∃ es, single_pass_modelspace (open_stream truncated)
           = Some {| sp_entities := es;
                     sp_ending := SpRaise (DXFStructureError "Invalid group code");
                     sp_stream_closed := false |}).
Proof. split; eexists; vm_compute; reflexivity. Qed.

End OnSamples.

(** * Further properties of the module *)

(** ** What [IterDXF] holds after opening *)

Section IndexProperties.
Context `{Codecs} `{Collaborators}.

(** The loop of [_load_index] keeps the code 0 entries, in their order. *)
Lemma index_step_records (idx : list IndexEntry) :
  ∀ new_index sections,
    (foldl index_step (new_index, sections) idx).1
    = new_index ++ filter (fun e => ie_code e = 0) idx.
Proof.
  induction idx as [|e idx IH]; intros new_index sections.
  - simpl. rewrite app_nil_r. reflexivity.
  - change (foldl index_step (new_index, sections) (e :: idx))
      with (foldl index_step (index_step (new_index, sections) e) idx).
    destruct (ie_code e =? 0) eqn:E0.
    + replace (index_step (new_index, sections) e) with (new_index ++ [e], sections)
        by (unfold index_step; rewrite E0; reflexivity).
      rewrite IH, filter_cons_True by lia. rewrite <- app_assoc. reflexivity.
    + rewrite filter_cons_False by lia.
      unfold index_step. rewrite E0. destruct (ie_code e =? 2); apply IH.
Qed.

(** A section name is mapped to the position, among the code 0 entries, of
    the one in front of its last code 2 entry: the number of code 0 entries
    before it, less one. *)
Lemma index_step_section (k : str) (pre post : list IndexEntry) (n : IndexEntry) :
  ie_code n = 2 → ie_value n = k →
  Forall (fun e => ¬ (ie_code e = 2 ∧ ie_value e = k)) post →
  ∀ new_index sections,
    (foldl index_step (new_index, sections) (pre ++ n :: post)).2 !! k
    = Some (Z.of_nat (length (new_index ++ filter (fun e => ie_code e = 0) pre)) - 1).
Proof.
  intros Hcode Hname Hpost new_index sections.
  rewrite foldl_app. simpl.
  pose proof (index_step_records pre new_index sections) as Hpre.
  destruct (foldl index_step (new_index, sections) pre) as [ni secs]. simpl in Hpre.
  subst ni.
  replace (index_step (new_index ++ filter (fun e => ie_code e = 0) pre, secs) n)
    with (new_index ++ filter (fun e => ie_code e = 0) pre,
          <[ie_value n := Z.of_nat (length (new_index
                                            ++ filter (fun e => ie_code e = 0) pre)) - 1]>
            secs)
    by (unfold index_step; rewrite Hcode; reflexivity).
  assert (Hkeep : ∀ acc : list IndexEntry * gmap str Z,
            (foldl index_step acc post).2 !! k = acc.2 !! k).
  { clear -Hpost. induction Hpost as [|e post He _ IH]; intros [ni secs]; [reflexivity|].
    simpl. rewrite IH. unfold index_step.
    destruct (ie_code e =? 0) eqn:E0; [reflexivity|].
    destruct (ie_code e =? 2) eqn:E2; [|reflexivity].
    simpl. apply lookup_insert_ne. intros Hk. apply He. split; [lia | exact Hk]. }
  rewrite Hkeep. simpl. rewrite Hname. apply lookup_insert_eq.
Qed.

(** X1: [_load_index] drops every entry that is not a code 0 entry, the
    handles among them, and keeps the others in the order of the file. *)
Theorem load_index_keeps_records (name : bytes) (fs : FileStructure) :
  fileindex_load name = Ok fs →
  ∃ sections,
    _load_index name
    = Ok ({| index := filter (fun e => ie_code e = 0) (index fs);
             version := version fs;
             encoding := encoding fs |}, sections).
Proof.
  intros Hl. rewrite (load_index_eq _ _ Hl).
  rewrite (index_step_records (index fs) [] ∅). eauto.
Qed.

Lemma getitem_middle {A} (l1 l2 : list A) (x : A) :
  getitem (l1 ++ x :: l2) (Z.of_nat (length l1)) = Ok x.
Proof.
  unfold getitem. rewrite length_app. cbn [length].
  assert (E0 : (0 <=? Z.of_nat (length l1)) = true) by (apply Z.leb_le; lia).
  assert (E1 : (Z.of_nat (length l1) <? Z.of_nat (length l1 + S (length l2))) = true)
    by (apply Z.ltb_lt; lia).
  cbv zeta. rewrite !E0, E1. simpl.
  rewrite Nat2Z.id, list_lookup_middle by reflexivity. reflexivity.
Qed.

(** X2: the section map built by [_load_index] sends a section name to
    the position in the new index of the record entry that stands in front
    of the name entry, the SECTION entry of a well-formed file; a later
    section of the same name replaces an earlier one. *)
Theorem load_index_section_position (name : bytes) (fs : FileStructure)
    (pre post : list IndexEntry) (s n : IndexEntry) :
  fileindex_load name = Ok fs →
  index fs = pre ++ s :: n :: post →
  ie_code s = 0 → ie_code n = 2 →
  Forall (fun e => ¬ (ie_code e = 2 ∧ ie_value e = ie_value n)) post →
  ∃ structure sections pos,
    _load_index name = Ok (structure, sections)
    ∧ sections !! ie_value n = Some pos
    ∧ getitem (index structure) pos = Ok s.
Proof.
  intros Hl Hidx Hs Hn Hpost. rewrite (load_index_eq _ _ Hl).
  eexists _, _, _. split; [reflexivity|]. split.
  - rewrite Hidx, (cons_middle s), app_assoc.
    apply (index_step_section _ _ _ _ Hn eq_refl Hpost).
  - simpl. rewrite (index_step_records (index fs) [] ∅), Hidx. simpl.
    assert (Hone : filter (fun e => ie_code e = 0) [s] = [s])
      by (rewrite filter_cons_True by exact Hs; reflexivity).
    rewrite !filter_app, Hone, filter_cons_True by exact Hs.
    rewrite filter_cons_False by lia. rewrite length_app. simpl.
    replace (Z.of_nat (length (filter (fun e => ie_code e = 0) pre) + 1) - 1)
      with (Z.of_nat (length (filter (fun e => ie_code e = 0) pre))) by lia.
    apply getitem_middle.
Qed.

(** X3: the invariant [opendxf] establishes.  An object it returns has
    ENTITIES in its section map, and OBJECTS too when its version is after
    AC1009; its index holds code 0 entries only; every section position is
    -1 or a position of the index; its file is open at offset 0. *)
Theorem opendxf_invariant (name : bytes) (self : IterDXF) :
  opendxf name = Ok self →
  is_Some (sections self !! U "ENTITIES")
  ∧ (str_gt (IterDXF_dxfversion self) (U "AC1009") = true →
     is_Some (sections self !! U "OBJECTS"))
  ∧ Forall (fun e => ie_code e = 0) (index (structure self))
  ∧ map_Forall (fun _ pos => -1 ≤ pos < Z.of_nat (length (index (structure self))))
               (sections self)
  ∧ file self = open_rb name.
Proof.
  unfold opendxf, IterDXF_init, _load_index.
  destruct (fileindex_load name) as [fs|x]; [|discriminate]. simpl.
  pose proof (index_step_records (index fs) [] ∅) as Hrec.
  assert (Hbound : ∀ idx (acc : list IndexEntry * gmap str Z),
            map_Forall (fun _ pos => -1 ≤ pos < Z.of_nat (length acc.1)) acc.2 →
            map_Forall (fun _ pos => -1 ≤ pos
                                     < Z.of_nat (length (foldl index_step acc idx).1))
                       (foldl index_step acc idx).2).
  { induction idx as [|e idx IH]; intros [ni secs] Hacc; [exact Hacc|].
    simpl. apply IH. unfold index_step.
    destruct (ie_code e =? 0).
    - simpl in *. intros k v Hk. specialize (Hacc k v Hk). simpl in Hacc.
      rewrite length_app. simpl. lia.
    - destruct (ie_code e =? 2); [|exact Hacc]. simpl in *.
      apply map_Forall_insert_2; [lia | exact Hacc]. }
  specialize (Hbound (index fs) ([], ∅) (map_Forall_empty _)).
  destruct (foldl index_step ([], ∅) (index fs)) as [new_index secs].
  simpl in Hrec, Hbound. simpl.
  case_bool_decide as He; [discriminate|].
  destruct (str_gt (version fs) (U "AC1009")) eqn:Hv; simpl.
  - case_bool_decide as Ho; [discriminate|]. intros [= <-]. simpl.
    split; [destruct (secs !! U "ENTITIES"); [eauto | done]|].
    split; [intros _; destruct (secs !! U "OBJECTS"); [eauto | done]|].
    split; [|auto]. rewrite Hrec. simpl.
    apply Forall_forall. intros e Hin. apply list_elem_of_filter in Hin. tauto.
  - intros [= <-]. simpl. unfold IterDXF_dxfversion. simpl. rewrite Hv.
    split; [destruct (secs !! U "ENTITIES"); [eauto | done]|].
    split; [discriminate|].
    split; [|auto]. rewrite Hrec. simpl.
    apply Forall_forall. intros e Hin. apply list_elem_of_filter in Hin. tauto.
Qed.

(** X4: [opendxf] and [export] together.  When the ENTITIES section of the
    loaded index is the last of that name and a record entry [first]
    follows its name entry, the new file starts with the bytes of the
    source up to the offset of [first]. *)
Theorem export_after_opendxf (name : bytes) (self : IterDXF) (fs : FileStructure)
    (pre post : list IndexEntry) (s n first : IndexEntry) :
  opendxf name = Ok self →
  fileindex_load name = Ok fs →
  index fs = pre ++ s :: n :: first :: post →
  ie_code s = 0 → ie_code n = 2 → ie_value n = U "ENTITIES" → ie_code first = 0 →
  Forall (fun e => ¬ (ie_code e = 2 ∧ ie_value e = U "ENTITIES")) post →
  0 ≤ location first →
  ∃ doc self',
    IterDXF_export self = (Ok doc, self')
    ∧ written (out_file doc) = take (Z.to_nat (location first)) name.
Proof.
  intros Hopen Hl Hidx Hs Hn Hname Hfirst Hpost Hloc.
  unfold opendxf, IterDXF_init in Hopen. rewrite (load_index_eq _ _ Hl) in Hopen.
  simpl in Hopen.
  assert (Hsec : (foldl index_step ([], ∅) (index fs)).2 !! U "ENTITIES"
                 = Some (Z.of_nat (length (filter (fun e => ie_code e = 0) pre)))).
  { rewrite Hidx, (cons_middle s), app_assoc, <- Hname.
    rewrite (index_step_section (ie_value n) (pre ++ [s]) (first :: post) n Hn eq_refl).
    - assert (Hone : filter (fun e => ie_code e = 0) [s] = [s])
        by (rewrite filter_cons_True by exact Hs; reflexivity).
      simpl. rewrite filter_app, Hone, length_app. simpl. f_equal. lia.
    - constructor; [|rewrite Hname; exact Hpost]. intros [H2 _]. lia. }
  assert (Hindex : (foldl index_step ([], ∅) (index fs)).1
                   = (filter (fun e => ie_code e = 0) pre ++ [s])
                     ++ first :: filter (fun e => ie_code e = 0) post).
  { rewrite (index_step_records (index fs) [] ∅), Hidx. simpl.
    rewrite filter_app, filter_cons_True by exact Hs.
    rewrite filter_cons_False by lia.
    rewrite filter_cons_True by exact Hfirst. rewrite <- app_assoc. reflexivity. }
  assert (Hget : getitem (foldl index_step ([], ∅) (index fs)).1
                   (Z.of_nat (length (filter (fun e => ie_code e = 0) pre)) + 1)
                 = Ok first).
  { rewrite Hindex.
    replace (Z.of_nat (length (filter (fun e => ie_code e = 0) pre)) + 1)
      with (Z.of_nat (length (filter (fun e => ie_code e = 0) pre ++ [s])))
      by (rewrite length_app; simpl; lia).
    apply getitem_middle. }
  rewrite Hsec in Hopen.
  rewrite bool_decide_eq_false_2 in Hopen by discriminate.
  destruct (str_gt (version fs) (U "AC1009") && _) in Hopen; [discriminate|].
  injection Hopen as <-. unfold IterDXF_export. simpl.
  rewrite Hsec, Hget, read_ok by (reflexivity || exact Hloc). simpl.
  eexists _, _. split; [reflexivity|]. simpl. rewrite drop_0. reflexivity.
Qed.

End IndexProperties.

(** ** Reading tags back *)

Section ReadingBack.
Context `{Codecs}.

Lemma split_line_LF (l rest : bytes) :
  LF ∉ l → split_line (l ++ LF :: rest) = (l ++ [LF], rest).
Proof.
  induction l as [|c l IH]; intros Hl; simpl.
  - reflexivity.
  - apply not_elem_of_cons in Hl as [Hc Hl].
    rewrite bool_decide_eq_false_2 by congruence. rewrite (IH Hl). reflexivity.
Qed.

Lemma split_line_eol (eol l rest : bytes) :
  eol = [LF] ∨ eol = [CR; LF] → LF ∉ l →
  split_line (l ++ eol ++ rest) = (l ++ eol, rest).
Proof.
  intros [-> | ->] Hl; simpl.
  - apply split_line_LF, Hl.
  - rewrite (cons_middle CR l), app_assoc, split_line_LF.
    + rewrite <- app_assoc. reflexivity.
    + intros Hin. apply elem_of_app in Hin as [Hin | Hin]; [exact (Hl Hin)|].
      apply list_elem_of_singleton in Hin. discriminate.
Qed.

Lemma rstrip_crlf_eol (eol v : bytes) :
  eol = [LF] ∨ eol = [CR; LF] → rstrip_crlf (v ++ eol) = rstrip_crlf v.
Proof.
  intros [-> | ->]; unfold rstrip_crlf; rewrite reverse_app; reflexivity.
Qed.

(** A well-formed pair of lines at the head of an open stream is read as
    its tag, and the stream is left behind the two lines. *)
Lemma load_tag_reads (encoding : option str) (eol code_line v rest : bytes)
    (c : Z) (t : DXFTag) :
  eol = [LF] ∨ eol = [CR; LF] →
  well_formed_lines eol (c, code_line, v) →
  tag_of encoding c v = Ok t →
  load_tag encoding (open_stream (code_line ++ eol ++ v ++ eol ++ rest))
  = (Ok t, open_stream rest).
Proof.
  intros Heol (Hcl & Hint & Hc & Hv & Hstrip) Ht.
  unfold load_tag, readline, open_stream. simpl.
  rewrite (split_line_eol _ _ _ Heol Hcl), Hint.
  replace ((c <? 0) || (1071 <? c)) with false
    by (symmetry; apply orb_false_iff; split; [apply Z.ltb_ge | apply Z.ltb_ge]; lia).
  simpl. rewrite (split_line_eol _ _ _ Heol Hv), (rstrip_crlf_eol _ _ Heol), Hstrip.
  unfold tag_of in Ht. destruct encoding as [[|a enc]|]; simpl in *.
  - injection Ht as <-. reflexivity.
  - destruct (decode (a :: enc) v) as [s|x]; simpl in *; [|discriminate].
    injection Ht as <-. reflexivity.
  - injection Ht as <-. reflexivity.
Qed.

(** X5: tags written one after the other, each line ended by LF or each by
    CR LF, are read back by [binary_tagger] as the same codes and values,
    the line ends stripped; then the input is at its end and the tagger
    raises. *)
Theorem binary_tagger_reads_back (encoding : option str) (eol : bytes)
    (ts : list (Z * bytes * bytes)) (tags : list DXFTag) :
  eol = [LF] ∨ eol = [CR; LF] →
  Forall2 (fun t tag => well_formed_lines eol t
                        ∧ tag_of encoding t.1.1 t.2 = Ok tag) ts tags →
  ∃ trace,
    tags_of encoding (open_stream (tag_stream eol ts))
    = Some (trace, GenRaise (DXFStructureError "Invalid group code"), open_stream [])
    ∧ fst <$> trace = tags.
Proof.
  intros Heol Hts. unfold tags_of.
  assert (Hrun : ∀ fuel, (length (tag_stream eol ts) < fuel)%nat →
            ∃ trace,
              tagger_run fuel (binary_tagger encoding) (open_stream (tag_stream eol ts))
              = Some (trace, GenRaise (DXFStructureError "Invalid group code"),
                      open_stream [])
              ∧ fst <$> trace = tags).
  { induction Hts as [|[[c code_line] v] tag ts tags [Hwf Htag] _ IH];
      intros fuel Hfuel.
    - destruct fuel as [|fuel]; [simpl in Hfuel; lia|]. exists []. auto.
    - destruct fuel as [|fuel]; [lia|].
      unfold tag_stream in *. cbn [fmap list_fmap concat] in *.
      simpl in Htag. simpl. unfold tagger_next. simpl.
      rewrite <- !app_assoc.
      rewrite (load_tag_reads encoding eol code_line v _ c tag Heol Hwf Htag).
      destruct (IH fuel) as (trace & -> & Htrace).
      + rewrite !length_app in Hfuel. destruct Hwf as (_ & Hint & _).
        destruct code_line, eol; simpl in *; try lia.
        destruct Heol; discriminate.
      + simpl. eexists. split; [reflexivity|]. rewrite <- Htrace. reflexivity. }
  apply Hrun. simpl. lia.
Qed.

(** X6: the sequence of tags is finite whatever the stream holds: the
    generator comes to an end, and it has then yielded at most one tag for
    every byte of the stream. *)
Theorem binary_tagger_finite (encoding : option str) (file : BinaryIO) :
  ∃ trace e fe,
    tags_of encoding file = Some (trace, e, fe)
    ∧ (length trace ≤ length (buf file))%nat.
Proof.
  destruct (tags_of_total encoding file) as [[[trace e] fe] Hr].
  exists trace, e, fe. split; [exact Hr|]. unfold tags_of in Hr.
  revert Hr. generalize (binary_tagger encoding), (S (length (buf file))).
  intros g fuel. revert g file trace e fe.
  induction fuel as [|fuel IH]; intros g file trace e fe; [discriminate|].
  simpl. unfold tagger_next. destruct (finished g).
  - intros [= <- _ _]. simpl. lia.
  - destruct (load_tag (t_encoding g) file) as [[t|x] f'] eqn:E.
    + apply load_tag_ok in E as [Hlt _].
      destruct (tagger_run fuel g f') as [[[ts' e'] fe']|] eqn:Er; [|discriminate].
      simpl. intros [= <- _ _]. specialize (IH _ _ _ _ _ Er). simpl. lia.
    + destruct x; intros [= <- _ _]; simpl; lia.
Qed.

End ReadingBack.

(** ** The two loops of the single-pass iterator *)

Section SinglePassLoops.
Context `{Codecs} `{Collaborators}.

Lemma header_step_codepage (st : header_state) (tag : DXFTag) :
  names_codepage tag →
  header_step st tag = Ok (mkHeader ENCODING (h_encoding st) (h_version st)).
Proof.
  intros [Hc Hv]. unfold header_step. rewrite Hc, Hv. reflexivity.
Qed.

Lemma header_step_version (st : header_state) (tag : DXFTag) :
  names_version tag →
  header_step st tag = Ok (mkHeader VERSION (h_encoding st) (h_version st)).
Proof.
  intros [Hc Hv]. unfold header_step. rewrite Hc, Hv. reflexivity.
Qed.

(** A tag that names neither variable is the value of the variable named
    just before it, if any. *)
Lemma header_step_value (st : header_state) (tag : DXFTag) :
  ¬ names_codepage tag → ¬ names_version tag →
  header_step st tag
  = match fetch_header_var st with
    | NoVar => Ok st
    | ENCODING =>
        s ← value_decode (value tag);
        Ok (mkHeader NoVar (toencoding s) (h_version st))
    | VERSION =>
        s ← value_decode (value tag);
        Ok (mkHeader NoVar (h_encoding st) s)
    end.
Proof.
  intros Hc Hv. unfold header_step.
  destruct ((code tag =? 9) && bool_decide (value tag = VBytes (B "$DWGCODEPAGE")))
    eqn:E1.
  { destruct Hc. apply andb_true_iff in E1 as [E1 E2].
    apply bool_decide_eq_true in E2. split; [lia | exact E2]. }
  destruct ((code tag =? 9) && bool_decide (value tag = VBytes (B "$ACADVERSION")))
    eqn:E2; [|reflexivity].
  destruct Hv. apply andb_true_iff in E2 as [E2 E3].
  apply bool_decide_eq_true in E3. split; [lia | exact E3].
Qed.

Lemma scan_header_steps (ts : list (DXFTag * BinaryIO)) (e : gen_end) (fe : BinaryIO) :
  ∀ st st' f, scan_header ts e fe st = Ok (st', f) →
    header_steps (header_tags ts) st = Ok st'.
Proof.
  induction ts as [|[tag f0] ts IH]; intros st st' f; simpl.
  - destruct e; [intros [= <- _]; reflexivity | discriminate].
  - destruct ((code tag =? 0) && bool_decide (value tag = VBytes (B "ENDSEC"))).
    + intros [= <- _]. reflexivity.
    + simpl. destruct (header_step st tag) as [st1|x]; simpl; [apply IH | discriminate].
Qed.

Lemma header_steps_app (pre post : list DXFTag) :
  ∀ st st', header_steps (pre ++ post) st = Ok st' →
    ∃ st1, header_steps pre st = Ok st1 ∧ header_steps post st1 = Ok st'.
Proof.
  induction pre as [|t pre IH]; intros st st'; simpl; [eauto|].
  destruct (header_step st t) as [st1|x]; simpl; [apply IH | discriminate].
Qed.

(** Without a tag naming the codepage the encoding stays as it is. *)
Lemma header_steps_keep_encoding (tags : list DXFTag) :
  Forall (fun t => ¬ names_codepage t) tags →
  ∀ st st', fetch_header_var st ≠ ENCODING →
    header_steps tags st = Ok st' → h_encoding st' = h_encoding st.
Proof.
  induction 1 as [|t tags Ht _ IH]; intros st st' Hf; simpl;
    [intros [= <-]; reflexivity|].
  destruct (decide (names_version t)) as [Hv | Hv].
  - rewrite (header_step_version _ _ Hv). simpl. intros Hr.
    apply IH in Hr; [exact Hr | discriminate].
  - rewrite (header_step_value _ _ Ht Hv).
    destruct (fetch_header_var st) eqn:Ef; [| congruence |]; simpl.
    + intros Hr. apply IH in Hr; [exact Hr | congruence].
    + destruct (value_decode (value t)) as [s|x]; simpl; [|discriminate].
      intros Hr. apply IH in Hr; [exact Hr | discriminate].
Qed.

(** Without a tag naming the version the version stays as it is. *)
Lemma header_steps_keep_version (tags : list DXFTag) :
  Forall (fun t => ¬ names_version t) tags →
  ∀ st st', fetch_header_var st ≠ VERSION →
    header_steps tags st = Ok st' → h_version st' = h_version st.
Proof.
  induction 1 as [|t tags Ht _ IH]; intros st st' Hf; simpl;
    [intros [= <-]; reflexivity|].
  destruct (decide (names_codepage t)) as [Hc | Hc].
  - rewrite (header_step_codepage _ _ Hc). simpl. intros Hr.
    apply IH in Hr; [exact Hr | discriminate].
  - rewrite (header_step_value _ _ Hc Ht).
    destruct (fetch_header_var st) eqn:Ef; [| | congruence]; simpl.
    + intros Hr. apply IH in Hr; [exact Hr | congruence].
    + destruct (value_decode (value t)) as [s|x]; simpl; [|discriminate].
      intros Hr. apply IH in Hr; [exact Hr | discriminate].
Qed.

(** X7: the two header variables fall back to their defaults one
    independently of the other.  When the first loop comes through, the
    encoding is cp1252 unless a tag 9/$DWGCODEPAGE stands in front of the
    first ENDSEC, and the version is AC1009 unless a tag 9/$ACADVERSION
    stands there. *)
Theorem header_scan_defaults (stream stream' : BinaryIO) (hd : header_state)
    (ts : list (DXFTag * BinaryIO)) (e : gen_end) (fe : BinaryIO) :
  tags_of None stream = Some (ts, e, fe) →
  header_of stream = Some (Ok (hd, stream')) →
  (Forall (fun t => ¬ names_codepage t) (header_tags ts) → h_encoding hd = U "cp1252")
  ∧ (Forall (fun t => ¬ names_version t) (header_tags ts) → h_version hd = U "AC1009").
Proof.
  intros Ht Hh. unfold header_of in Hh. rewrite Ht in Hh. simpl in Hh.
  apply (inj Some) in Hh. apply scan_header_steps in Hh. split; intros Hno.
  - apply (header_steps_keep_encoding _ Hno) in Hh; [exact Hh | discriminate].
  - apply (header_steps_keep_version _ Hno) in Hh; [exact Hh | discriminate].
Qed.

(** X8: the value of a header variable is the tag that follows its name,
    whatever the group code of that tag, decoded as UTF-8; the last name in
    front of the first ENDSEC counts.  The version is the decoded text, the
    encoding is what [toencoding] makes of it. *)
Theorem header_scan_resolves (stream stream' : BinaryIO) (hd : header_state)
    (ts : list (DXFTag * BinaryIO)) (e : gen_end) (fe : BinaryIO)
    (pre post : list DXFTag) (name val : DXFTag) (s : str) :
  tags_of None stream = Some (ts, e, fe) →
  header_of stream = Some (Ok (hd, stream')) →
  header_tags ts = pre ++ name :: val :: post →
  ¬ names_codepage val → ¬ names_version val →
  value_decode (value val) = Ok s →
  (names_version name → Forall (fun t => ¬ names_version t) post → h_version hd = s)
  ∧ (names_codepage name → Forall (fun t => ¬ names_codepage t) post →
     h_encoding hd = toencoding s).
Proof.
  intros Ht Hh Htags Hvc Hvv Hs. unfold header_of in Hh. rewrite Ht in Hh.
  simpl in Hh. apply (inj Some) in Hh. apply scan_header_steps in Hh.
  rewrite Htags in Hh. apply header_steps_app in Hh as (st1 & _ & Hh).
  simpl in Hh. split; intros Hname Hpost.
  - rewrite (header_step_version _ _ Hname) in Hh. simpl in Hh.
    rewrite (header_step_value _ _ Hvc Hvv) in Hh. simpl in Hh.
    rewrite Hs in Hh. simpl in Hh.
    apply (header_steps_keep_version _ Hpost) in Hh; [exact Hh | discriminate].
  - rewrite (header_step_codepage _ _ Hname) in Hh. simpl in Hh.
    rewrite (header_step_value _ _ Hvc Hvv) in Hh. simpl in Hh.
    rewrite Hs in Hh. simpl in Hh.
    apply (header_steps_keep_encoding _ Hpost) in Hh; [exact Hh | discriminate].
Qed.

(** Outside the ENTITIES section the second loop yields nothing. *)
Lemma entities_loop_outside (version : str) (ts : list DXFTag) (e : gen_end) :
  ∀ s,
    entities s = false → yielded s = [] →
    VStr (U "ENTITIES") ∉ section_names (mkTag (prev_code s) (prev_value s)) ts →
    entities_loop version ts e s
    = ([], match e with GenStop => SpExhausted | GenRaise x => SpRaise x end).
Proof.
  induction ts as [|[c v] ts IH]; intros s Hs Hy Hno; simpl.
  - rewrite Hy. destruct e; reflexivity.
  - simpl in Hno. unfold loop_step. rewrite Hs. simpl.
    destruct (c =? 0) eqn:E0.
    + replace (c =? 2) with false in Hno by (symmetry; apply Z.eqb_neq; lia).
      simpl in Hno. apply IH; [reflexivity | exact Hy | exact Hno].
    + destruct ((c =? 2) && (prev_code s =? 0)
                && bool_decide (prev_value s = VStr (U "SECTION"))) eqn:E2.
      * apply not_elem_of_cons in Hno as [Hne Hno].
        apply IH; [|exact Hy | exact Hno]. simpl.
        apply bool_decide_eq_false_2. congruence.
      * apply IH; [reflexivity | exact Hy | exact Hno].
Qed.

(** X9: no entity comes out of a stream that never opens an ENTITIES
    section.  When, behind the first ENDSEC, no tag 2/ENTITIES follows a tag
    0/SECTION, [single_pass_modelspace] yields nothing; it raises no
    structure error of its own but ends as its tags end, closing the stream
    if they end without an exception. *)
Theorem single_pass_without_entities (stream stream' : BinaryIO)
    (hd : header_state) (ts : list DXFTag) (e : gen_end) :
  header_of stream = Some (Ok (hd, stream')) →
  compiled_tags (h_encoding hd) stream' = Some (ts, e) →
  VStr (U "ENTITIES") ∉ section_names (mkTag (-1) (VStr [])) ts →
  single_pass_modelspace stream
  = Some match e with
         | GenStop => mkResult [] SpExhausted true
         | GenRaise x => mkResult [] (SpRaise x) (closed stream)
         end.
Proof.
  intros Hh Ht Hno. unfold single_pass_modelspace. rewrite Hh. simpl. rewrite Ht.
  simpl. rewrite entities_loop_outside by (reflexivity || exact Hno).
  destruct e; reflexivity.
Qed.

(** X10: the ENDSEC of the ENTITIES section ends the generator.  Whatever
    tags follow it, and however their sequence ends, the generator yields
    the queued entity and returns, leaving the stream as it is; the record
    in front of the ENDSEC, whose tags are still pending, is not built. *)
Theorem nothing_after_endsec (stream stream' : BinaryIO) (hd : header_state)
    (pre rest : list DXFTag) (e : gen_end) (s : loop_state) :
  header_of stream = Some (Ok (hd, stream')) →
  compiled_tags (h_encoding hd) stream'
  = Some (pre ++ mkTag 0 (VStr (U "ENDSEC")) :: rest, e) →
  loop_prefix (h_version hd) pre (loop_start (h_encoding hd)) = Some s →
  entities s = true →
  single_pass_modelspace stream
  = Some (mkResult (flush (entity_store s) (queued s) (yielded s)) SpReturn
                   (closed stream)).
Proof.
  intros Hh Ht Hpre Hs. unfold single_pass_modelspace. rewrite Hh. simpl.
  rewrite Ht. simpl. rewrite (entities_loop_app _ _ _ _ _ _ Hpre). simpl.
  unfold loop_step. rewrite Hs. simpl. reflexivity.
Qed.

End SinglePassLoops.

(** ** Byte spans, file position and the end of the section *)

Section IndexedIteration.
Context `{Codecs} `{Collaborators}.

(** With ascending offsets inside the file, reading span after span is
    slicing the file at the offsets of the index. *)
Lemma load_entities_loop_slices (self : IterDXF) (data : bytes) :
  ∀ rest entry,
    0 ≤ location entry →
    ascending (location entry) rest →
    Forall (fun e => location e ≤ Z.of_nat (length data)) rest →
    (load_entities_loop self entry rest
       {| content := data; pos := Z.to_nat (location entry); file_closed := false |}).1
    = records_between self data entry rest.
Proof.
  induction rest as [|next rest IH]; intros entry Hentry Hasc Hin.
  - simpl. case_bool_decide; reflexivity.
  - rewrite load_entities_loop_step. cbn [records_between].
    case_bool_decide; [reflexivity|].
    simpl in Hasc. destruct Hasc as [Hle Hasc].
    apply Forall_cons in Hin as [Hnext Hin].
    rewrite read_ok by (reflexivity || lia). cbn [pos content].
    assert (Hlen : length (take (Z.to_nat (location next - location entry))
                                (drop (Z.to_nat (location entry)) data))
                   = Z.to_nat (location next - location entry))
      by (rewrite length_take, length_drop; lia).
    rewrite Hlen.
    replace (Z.to_nat (location entry) + Z.to_nat (location next - location entry))%nat
      with (Z.to_nat (location next)) by lia.
    specialize (IH next ltac:(lia) Hasc Hin).
    unfold entity_of, slice.
    case_bool_decide; [|exact IH].
    destruct (_ ← to_str self _; _) as [entity|x]; [|reflexivity].
    destruct (load_entities_loop self next rest _) as [[es e] fe].
    simpl in IH. rewrite <- IH. reflexivity.
Qed.

(** X11: each entity is made of exactly the bytes between the offset of
    its index entry and the offset of the next entry.  On an open file, for
    an index whose offsets from [start] on ascend and lie inside the file,
    [load_entities] builds what slicing the file at those offsets gives. *)
Theorem load_entities_by_spans (self : IterDXF) (start : Z)
    (entry : IndexEntry) (rest : list IndexEntry) :
  file_closed (file self) = false →
  entries_from (index (structure self)) start = entry :: rest →
  ascending 0 (entry :: rest) →
  Forall (fun e => location e ≤ Z.of_nat (length (content (file self)))) rest →
  (load_entities self start).1
  = records_between self (content (file self)) entry rest.
Proof.
  intros Hc Hentries [Hentry Hasc] Hin. unfold load_entities.
  rewrite Hentries, seek_ok by assumption.
  apply load_entities_loop_slices; assumption.
Qed.

(** Reading leaves the content of a file and its closed flag alone. *)
Lemma read_keeps (f : File) (n : Z) :
  content (read f n).2 = content f ∧ file_closed (read f n).2 = file_closed f.
Proof.
  unfold read. destruct (file_closed f) eqn:E; [auto|].
  destruct (n <? -1); simpl; auto.
Qed.

Lemma seek_keeps (f : File) (offset : Z) :
  content (seek f offset).2 = content f
  ∧ file_closed (seek f offset).2 = file_closed f.
Proof.
  unfold seek. destruct (file_closed f) eqn:E; [auto|].
  destruct (offset <? 0); simpl; auto.
Qed.

Lemma load_entities_loop_keeps (self : IterDXF) :
  ∀ rest entry f,
    content (load_entities_loop self entry rest f).2 = content f
    ∧ file_closed (load_entities_loop self entry rest f).2 = file_closed f.
Proof.
  induction rest as [|next rest IH]; intros entry f.
  - simpl. case_bool_decide; auto.
  - rewrite load_entities_loop_step. case_bool_decide; [auto|].
    pose proof (read_keeps f (location next - location entry)) as [Hc Hf].
    destruct (read f _) as [[data|x] f1]; simpl in Hc, Hf; [|auto].
    specialize (IH next f1). rewrite Hc, Hf in IH.
    case_bool_decide; [|exact IH].
    destruct (_ ← to_str self data; _) as [entity|x]; [|auto].
    destruct (load_entities_loop self next rest f1) as [[es e] fe]. exact IH.
Qed.

Lemma load_entities_keeps (self : IterDXF) (start : Z) :
  content (load_entities self start).2 = content (file self)
  ∧ file_closed (load_entities self start).2 = file_closed (file self).
Proof.
  unfold load_entities. destruct (entries_from _ _) as [|entry rest]; [auto|].
  pose proof (seek_keeps (file self) (location entry)) as [Hc Hf].
  destruct (seek _ _) as [[u|x] f]; simpl in Hc, Hf; [|auto].
  rewrite <- Hc, <- Hf. apply load_entities_loop_keeps.
Qed.

(** The loop looks at the object for its encoding only. *)
Lemma load_entities_loop_object (self self' : IterDXF) :
  IterDXF_encoding self' = IterDXF_encoding self →
  ∀ rest entry f,
    load_entities_loop self' entry rest f = load_entities_loop self entry rest f.
Proof.
  intros He. induction rest as [|next rest IH]; intros entry f; [reflexivity|].
  rewrite !load_entities_loop_step.
  destruct (read f _) as [[data|x] f1]; [|reflexivity].
  rewrite (to_str_encoding _ _ _ He), IH. reflexivity.
Qed.

(** What [load_entities] builds does not depend on the position of the
    file it starts from. *)
Lemma load_entities_position (self : IterDXF) (f : File) (start : Z) :
  content f = content (file self) →
  file_closed f = file_closed (file self) →
  (load_entities (set_file self f) start).1 = (load_entities self start).1.
Proof.
  intros Hc Hf. unfold load_entities. simpl.
  destruct (entries_from _ _) as [|entry rest]; [reflexivity|].
  unfold seek. rewrite Hf, Hc.
  destruct (file_closed (file self)); [reflexivity|].
  destruct (location entry <? 0); [reflexivity|].
  rewrite (load_entities_loop_object self (set_file self f) eq_refl). reflexivity.
Qed.

Lemma modelspace_position (self : IterDXF) (f : File) :
  content f = content (file self) →
  file_closed f = file_closed (file self) →
  (IterDXF_modelspace (set_file self f)).1 = (IterDXF_modelspace self).1.
Proof.
  intros Hc Hf. unfold IterDXF_modelspace. simpl.
  destruct (sections self !! U "ENTITIES") as [sec|]; [|reflexivity].
  pose proof (load_entities_position self f (sec + 1) Hc Hf) as Hl.
  destruct (load_entities (set_file self f) (sec + 1)) as [[es' e'] f'].
  destruct (load_entities self (sec + 1)) as [[es e] f0].
  simpl in Hl. injection Hl as -> ->.
  destruct (modelspace_loop es [] entity_linker None []) as [[st q] out].
  destruct e; reflexivity.
Qed.

(** X12: [modelspace] can be run again.  It seeks before it reads, so on
    the object a first run leaves behind, and on the object [export] leaves
    behind, it yields the same entities and ends the same way as on the
    object itself. *)
Theorem modelspace_restartable (self : IterDXF) :
  (IterDXF_modelspace (IterDXF_modelspace self).2).1 = (IterDXF_modelspace self).1
  ∧ (IterDXF_modelspace (IterDXF_export self).2).1 = (IterDXF_modelspace self).1.
Proof.
  split.
  - unfold IterDXF_modelspace at 2.
    destruct (sections self !! U "ENTITIES") as [sec|] eqn:Hs; [|reflexivity].
    pose proof (load_entities_keeps self (sec + 1)) as [Hc Hf].
    destruct (load_entities self (sec + 1)) as [[es e] f]. simpl in Hc, Hf.
    destruct (modelspace_loop es [] entity_linker None []) as [[st q] out].
    destruct e; simpl; apply modelspace_position; assumption.
  - unfold IterDXF_export.
    destruct (sections self !! U "ENTITIES") as [sec|]; [|reflexivity].
    destruct (getitem _ _) as [entry|x]; [|reflexivity].
    pose proof (seek_keeps (file self) 0) as [Hc Hf].
    destruct (seek (file self) 0) as [[u|x] f]; simpl in Hc, Hf;
      [|simpl; apply modelspace_position; assumption].
    pose proof (read_keeps f (location entry)) as [Hc' Hf'].
    destruct (read f (location entry)) as [[data|x] f']; simpl in Hc', Hf';
      [|simpl; apply modelspace_position; congruence].
    destruct (write_data IterDXFWriter_init data) as [[u'|x] doc'];
      simpl; apply modelspace_position; congruence.
Qed.

(** X13: a section that is not closed.  When no index entry from [start]
    on is an ENDSEC, [load_entities] does not come to a normal end: it
    raises, an [IndexError] at the latest, and [modelspace] with it, so that
    the entity queued last is not yielded. *)
Theorem load_entities_without_endsec (self : IterDXF) (sec : Z) :
  sections self !! U "ENTITIES" = Some sec →
  Forall (fun e => ie_value e ≠ U "ENDSEC")
         (entries_from (index (structure self)) (sec + 1)) →
  (∃ x, (load_entities self (sec + 1)).1.2 = GenRaise x)
  ∧ (∃ x, (IterDXF_modelspace self).1.2 = GenRaise x)
  ∧ (IterDXF_modelspace self).1.1
    = (modelspace_loop (load_entities self (sec + 1)).1.1 [] entity_linker None []).2.
Proof.
  intros Hsec Hno.
  assert (Hloop : ∀ rest entry f,
            Forall (fun e => ie_value e ≠ U "ENDSEC") (entry :: rest) →
            ∃ x, (load_entities_loop self entry rest f).1.2 = GenRaise x).
  { induction rest as [|next rest IH]; intros entry f Hall;
      apply Forall_cons in Hall as [Hentry Hall].
    - simpl. rewrite bool_decide_eq_false_2 by exact Hentry. simpl. eauto.
    - rewrite load_entities_loop_step, bool_decide_eq_false_2 by exact Hentry.
      destruct (read f _) as [[data|x] f1]; [|simpl; eauto].
      specialize (IH next f1 Hall).
      case_bool_decide; [|exact IH].
      destruct (_ ← to_str self data; _) as [entity|x]; [|simpl; eauto].
      destruct (load_entities_loop self next rest f1) as [[es e] fe]. exact IH. }
  assert (Hload : ∃ x, (load_entities self (sec + 1)).1.2 = GenRaise x).
  { unfold load_entities.
    destruct (entries_from _ _) as [|entry rest]; [simpl; eauto|].
    destruct (seek _ _) as [[u|x] f]; [|simpl; eauto]. apply Hloop, Hno. }
  split; [exact Hload|]. destruct Hload as [x Hx].
  unfold IterDXF_modelspace. rewrite Hsec.
  destruct (load_entities self (sec + 1)) as [[es e] f]. simpl in Hx. subst e.
  simpl. destruct (modelspace_loop es [] entity_linker None []) as [[st q] out].
  simpl. split; [eauto | reflexivity].
Qed.

End IndexedIteration.

(** ** A run of the exporter *)

Section ExporterRun.
Context `{Codecs} `{Collaborators}.

Lemma open_file_eta (f : OutFile) :
  out_closed f = false → {| written := written f ++ []; out_closed := false |} = f.
Proof. destruct f. simpl. intros ->. rewrite app_nil_r. reflexivity. Qed.

(** What [copy_objects_section] does to the destination is to append some
    bytes that do not depend on what the destination holds. *)
Lemma copy_objects_section_appends (self : IterDXF) :
  ∃ r self' data, ∀ f,
    out_closed f = false →
    IterDXF_copy_objects_section self f
    = (r, self', {| written := written f ++ data; out_closed := false |}).
Proof.
  unfold IterDXF_copy_objects_section.
  destruct (sections self !! U "OBJECTS") as [start|];
    [|exists (Raise KeyError), self, []; intros f Hf; rewrite (open_file_eta f Hf);
      reflexivity].
  destruct (FileStructure_get _ _ _ _) as [end_index|x].
  2: { destruct (is_ValueError x);
         eexists _, self, []; intros f Hf; rewrite (open_file_eta f Hf); reflexivity. }
  destruct (getitem _ start) as [first|x];
    [|exists (Raise x), self, []; intros f Hf; rewrite (open_file_eta f Hf);
      reflexivity].
  destruct (getitem _ (end_index + 1)) as [last|x];
    [|exists (Raise x), self, []; intros f Hf; rewrite (open_file_eta f Hf);
      reflexivity].
  destruct (seek _ _) as [[u|x] sf];
    [|eexists (Raise x), _, []; intros f Hf; rewrite (open_file_eta f Hf);
      reflexivity].
  destruct (read sf _) as [[data|x] sf'];
    [|eexists (Raise x), _, []; intros f Hf; rewrite (open_file_eta f Hf);
      reflexivity].
  eexists (Ok ()), _, data. intros f Hf. rewrite (file_write_ok _ _ Hf). reflexivity.
Qed.

(** [close] appends to an open destination what it writes to an empty
    one. *)
Lemma close_appends (loader loader' : IterDXF) (closing self : IterDXFWriter) :
  IterDXFWriter_close loader IterDXFWriter_init = (Ok (), closing, loader') →
  out_closed (out_file self) = false →
  IterDXFWriter_close loader self
  = (Ok (),
     {| out_file := {| written := written (out_file self)
                                  ++ written (out_file closing);
                       out_closed := true |};
        text := text self |},
     loader').
Proof.
  intros Hinit Hopen. unfold IterDXFWriter_close in *.
  rewrite (file_write_ok _ _ Hopen).
  rewrite file_write_ok in Hinit by reflexivity.
  destruct (str_gt (IterDXF_dxfversion loader) (U "AC1009")).
  - destruct (copy_objects_section_appends loader) as (r & self' & data & Hcopy).
    rewrite Hcopy in Hinit by reflexivity. rewrite Hcopy by reflexivity.
    destruct r as [u|x]; [|discriminate].
    rewrite file_write_ok in Hinit by reflexivity. rewrite file_write_ok by reflexivity.
    injection Hinit as <- <-. unfold with_file, out_close. simpl.
    rewrite <- !app_assoc. reflexivity.
  - rewrite file_write_ok in Hinit by reflexivity. rewrite file_write_ok by reflexivity.
    injection Hinit as <- <-. unfold with_file, out_close. simpl.
    rewrite <- !app_assoc. reflexivity.
Qed.

Lemma write_appends (loader : IterDXF) (self : IterDXFWriter) (entity : DXFEntity)
    (data : bytes) :
  record_bytes loader entity = Ok data →
  out_closed (out_file self) = false →
  ∃ text,
    IterDXFWriter_write loader self entity
    = (Ok (),
       {| out_file := {| written := written (out_file self) ++ data;
                         out_closed := false |};
          text := text |},
       remove_dependencies entity).
Proof.
  unfold record_bytes, IterDXFWriter_write. intros Hd Hopen.
  destruct (export_entity _ _) as [[u|x] text]; [|discriminate].
  rewrite Hd, (file_write_ok _ _ Hopen). eauto.
Qed.

Lemma write_all_appends (loader : IterDXF) (es : list DXFEntity) (datas : list bytes) :
  Forall2 (fun e d => record_bytes loader e = Ok d) es datas →
  ∀ self, out_closed (out_file self) = false →
    ∃ self',
      write_all loader self es = (Ok (), self')
      ∧ written (out_file self') = written (out_file self) ++ concat datas
      ∧ out_closed (out_file self') = false.
Proof.
  induction 1 as [|e d es datas Hd _ IH]; intros self Hopen; simpl.
  - exists self. rewrite app_nil_r. auto.
  - destruct (write_appends loader self e d Hd Hopen) as [text ->].
    destruct (IH {| out_file := {| written := written (out_file self) ++ d;
                                   out_closed := false |};
                    text := text |} eq_refl) as (self' & -> & Hw & Hc).
    exists self'. simpl in Hw. rewrite Hw, app_assoc. auto.
Qed.

Lemma export_result (self self' : IterDXF) (doc : IterDXFWriter) :
  IterDXF_export self = (Ok doc, self') →
  out_closed (out_file doc) = false
  ∧ structure self' = structure self ∧ sections self' = sections self.
Proof.
  unfold IterDXF_export.
  destruct (sections self !! U "ENTITIES") as [sec|]; [|discriminate].
  destruct (getitem _ _) as [entry|x]; [|discriminate].
  destruct (seek _ _) as [[u|x] f]; [|discriminate].
  destruct (read f _) as [[data|x] f']; [|discriminate].
  simpl. intros [= <- <-]. auto.
Qed.

(** X14: a whole run of the exporter.  After [export], a [write] for each
    entity and [close], the new file holds what [export] copied, then the
    bytes of the entities in the order they were written, then what [close]
    writes to an empty file, and it is closed. *)
Theorem export_write_close (self self' loader' : IterDXF)
    (doc closing : IterDXFWriter) (es : list DXFEntity) (datas : list bytes) :
  IterDXF_export self = (Ok doc, self') →
  Forall2 (fun e d => record_bytes self' e = Ok d) es datas →
  IterDXFWriter_close self' IterDXFWriter_init = (Ok (), closing, loader') →
  ∃ doc' doc'',
    write_all self' doc es = (Ok (), doc')
    ∧ IterDXFWriter_close self' doc' = (Ok (), doc'', loader')
    ∧ written (out_file doc'')
      = written (out_file doc) ++ concat datas ++ written (out_file closing)
    ∧ out_closed (out_file doc'') = true.
Proof.
  intros Hexport Hdatas Hclose.
  destruct (export_result _ _ _ Hexport) as (Hopen & _ & _).
  destruct (write_all_appends self' es datas Hdatas doc Hopen) as (doc' & Hw & Hb & Hc).
  exists doc'. eexists. split; [exact Hw|].
  split; [apply (close_appends _ _ _ _ Hclose Hc)|]. simpl.
  rewrite Hb, <- app_assoc. auto.
Qed.

(** X15: handles after they are closed.  Once [IterDXF.close] has run,
    [modelspace] yields nothing and raises [ValueError] at its first seek
    and [export] raises it too; once [IterDXFWriter.close] has come through,
    a second [close] raises [ValueError] and writes nothing. *)
Theorem closed_handles_raise (self : IterDXF) (sec : Z) (entry first : IndexEntry)
    (rest : list IndexEntry) :
  sections self !! U "ENTITIES" = Some sec →
  entries_from (index (structure self)) (sec + 1) = first :: rest →
  getitem (index (structure self)) (sec + 1) = Ok entry →
  (IterDXF_modelspace (IterDXF_close self)).1 = ([], GenRaise ValueError)
  ∧ (IterDXF_export (IterDXF_close self)).1 = Raise ValueError
  ∧ (∀ loader loader' doc doc',
       IterDXFWriter_close loader doc = (Ok (), doc', loader') →
       ∀ loader'', IterDXFWriter_close loader'' doc' = (Raise ValueError, doc', loader'')).
Proof.
  intros Hsec Hentries Hget. split; [|split].
  - unfold IterDXF_modelspace, load_entities, IterDXF_close. simpl.
    rewrite Hsec, Hentries. reflexivity.
  - unfold IterDXF_export, IterDXF_close. simpl. rewrite Hsec, Hget. reflexivity.
  - intros loader loader' doc doc' Hclose loader''.
    assert (Hc : out_closed (out_file doc') = true).
    { unfold IterDXFWriter_close in Hclose.
      destruct (file_write (out_file doc) ENDSEC_marker) as [[u|x] f1]; [|discriminate].
      destruct (if str_gt _ _ then _ else _) as [[[u'|x] l] f2]; [|discriminate].
      destruct (file_write f2 EOF_marker) as [[u''|x] f3]; [|discriminate].
      injection Hclose as <- _. reflexivity. }
    unfold IterDXFWriter_close, file_write. rewrite Hc. unfold with_file.
    destruct doc'. reflexivity.
Qed.

(** X16: [write] writes a whole record group or nothing.  The records are
    collected in the text buffer and sent to the file in one piece at the
    end, so when [write] raises, in a serializer, in the encoder or for a
    missing terminator, the new file is as it was; the entity has lost its
    dependencies all the same. *)
Theorem write_all_or_nothing (loader : IterDXF) (self self' : IterDXFWriter)
    (entity entity' : DXFEntity) (x : exn) :
  IterDXFWriter_write loader self entity = (Raise x, self', entity') →
  out_file self' = out_file self ∧ entity' = remove_dependencies entity.
Proof.
  unfold IterDXFWriter_write.
  destruct (export_entity _ _) as [[u|x1] text]; [|intros [= _ <- <-]; auto].
  destruct (encode _ _) as [data|x2]; [|intros [= _ <- <-]; auto].
  unfold file_write. destruct (out_closed (out_file self)) eqn:Hc.
  - intros [= _ <- <-]. auto.
  - discriminate.
Qed.

End ExporterRun.

(** ** The further properties on the sample drawings *)

Section OnFurtherSamples.
Import Samples.

Lemma load_index_keeps_records_witness :
  ∃ sections,
    _load_index drawing
    = Ok ({| index := filter (fun e => ie_code e = 0) (index (loaded drawing));
             version := version (loaded drawing);
             encoding := encoding (loaded drawing) |}, sections).
Proof.
  apply (load_index_keeps_records drawing (loaded drawing)).
  vm_compute. reflexivity.
Defined.

Lemma load_index_section_position_witness :
  ∃ structure sections pos,
    _load_index drawing = Ok (structure, sections)
    ∧ sections !! U "ENTITIES" = Some pos
    ∧ getitem (index structure) pos = Ok (entry "SECTION" 52).
Proof.
  apply (load_index_section_position drawing (loaded drawing)
           [entry "SECTION" 0; mkEntry 2 (U "HEADER") 10; entry "ENDSEC" 43]
           (drop 5 (index (loaded drawing)))
           (entry "SECTION" 52) (mkEntry 2 (U "ENTITIES") 62)).
  - vm_compute. reflexivity.
  - vm_compute. reflexivity.
  - reflexivity.
  - reflexivity.
  - compute_done.
Defined.

Lemma opendxf_invariant_witness :
  let self := opened (with_objects ["0"; "ENDSEC"]) in
  is_Some (sections self !! U "ENTITIES")
  ∧ (str_gt (IterDXF_dxfversion self) (U "AC1009") = true →
     is_Some (sections self !! U "OBJECTS"))
  ∧ Forall (fun e => ie_code e = 0) (index (structure self))
  ∧ map_Forall (fun _ pos => -1 ≤ pos < Z.of_nat (length (index (structure self))))
               (sections self)
  ∧ file self = open_rb (with_objects ["0"; "ENDSEC"]).
Proof.
  apply (opendxf_invariant (with_objects ["0"; "ENDSEC"])).
  vm_compute. reflexivity.
Defined.

Lemma export_after_opendxf_witness :
  ∃ doc self',
    IterDXF_export (opened drawing) = (Ok doc, self')
    ∧ written (out_file doc) = take 73 drawing.
Proof.
  apply (export_after_opendxf drawing (opened drawing) (loaded drawing)
           [entry "SECTION" 0; mkEntry 2 (U "HEADER") 10; entry "ENDSEC" 43]
           (drop 6 (index (loaded drawing)))
           (entry "SECTION" 52) (mkEntry 2 (U "ENTITIES") 62) (entry "LINE" 73)).
  - vm_compute. reflexivity.
  - vm_compute. reflexivity.
  - vm_compute. reflexivity.
  - reflexivity.
  - reflexivity.
  - reflexivity.
  - reflexivity.
  - compute_done.
  - simpl. lia.
Defined.

Lemma binary_tagger_reads_back_witness :
  ∃ trace,
    tags_of (Some (U "utf-8")) (open_stream (ENDSEC_marker ++ EOF_marker))
    = Some (trace, GenRaise (DXFStructureError "Invalid group code"), open_stream [])
    ∧ fst <$> trace = [tag 0 "ENDSEC"; tag 0 "EOF"].
Proof.
  apply (binary_tagger_reads_back (Some (U "utf-8")) [CR; LF]
           [(0, B "  0", B "ENDSEC"); (0, B "  0", B "EOF")]
           [tag 0 "ENDSEC"; tag 0 "EOF"]).
  - right. reflexivity.
  - repeat constructor;
      lazymatch goal with
      | |- _ ∉ _ => compute_done
      | |- _ ≤ _ => lia
      | |- _ = _ => vm_compute; reflexivity
      end.
Defined.

Lemma header_scan_defaults_witness :
  let modern := mkHeader NoVar (U "cp1252") (U "AC1015") in
  let coded := mkHeader NoVar (U "utf-8") (U "AC1009") in
  (scanned modern_text = Some modern ∧ h_encoding modern = U "cp1252")
  ∧ (scanned codepage_header = Some coded ∧ h_version coded = U "AC1009").
Proof.
  split; (split; [vm_compute; reflexivity|]).
  - eapply (header_scan_defaults (open_stream modern_text)).
    + vm_compute. reflexivity.
    + vm_compute. reflexivity.
    + compute_done.
  - eapply (header_scan_defaults (open_stream codepage_header)).
    + vm_compute. reflexivity.
    + vm_compute. reflexivity.
    + compute_done.
Defined.

Lemma header_scan_resolves_witness :
  let modern := mkHeader NoVar (U "cp1252") (U "AC1015") in
  let coded := mkHeader NoVar (U "utf-8") (U "AC1009") in
  (scanned modern_text = Some modern ∧ h_version modern = U "AC1015")
  ∧ (scanned codepage_header = Some coded
     ∧ h_encoding coded = toencoding (U "UTF-8")).
Proof.
  split; (split; [vm_compute; reflexivity|]).
  - eapply (header_scan_resolves (open_stream modern_text) _ _ _ _ _
              [raw 0 "SECTION"; raw 2 "HEADER"] [] (raw 9 "$ACADVERSION")
              (raw 1 "AC1015") (U "AC1015")).
    + vm_compute. reflexivity.
    + vm_compute. reflexivity.
    + vm_compute. reflexivity.
    + compute_done.
    + compute_done.
    + vm_compute. reflexivity.
    + split; reflexivity.
    + constructor.
  - eapply (header_scan_resolves (open_stream codepage_header) _ _ _ _ _
              [raw 0 "SECTION"; raw 2 "HEADER"] [] (raw 9 "$DWGCODEPAGE")
              (raw 3 "UTF-8") (U "UTF-8")).
    + vm_compute. reflexivity.
    + vm_compute. reflexivity.
    + vm_compute. reflexivity.
    + compute_done.
    + compute_done.
    + vm_compute. reflexivity.
    + split; reflexivity.
    + constructor.
Defined.

Lemma single_pass_without_entities_witness :
  single_pass_modelspace (open_stream no_entities)
  = Some (mkResult [] (SpRaise (DXFStructureError "Invalid group code")) false)
  ∧ single_pass_modelspace
      {| buf := no_entities; closed := false; fail_in := Some 18%nat |}
    = Some (mkResult [] SpExhausted true)
  ∧ single_pass_modelspace (open_stream headerless)
    = Some (mkResult [] (SpRaise (DXFStructureError "Invalid group code")) false).
Proof.
  split; [|split].
  - apply (single_pass_without_entities (open_stream no_entities)
             (behind_header no_entities) legacy_header
             [tag 0 "SECTION"; tag 2 "TABLES"; tag 0 "ENDSEC"; tag 0 "EOF"]
             (GenRaise (DXFStructureError "Invalid group code"))).
    + vm_compute. reflexivity.
    + vm_compute. reflexivity.
    + compute_done.
  - eapply (single_pass_without_entities
              {| buf := no_entities; closed := false; fail_in := Some 18%nat |}
              _ legacy_header
              [tag 0 "SECTION"; tag 2 "TABLES"; tag 0 "ENDSEC"; tag 0 "EOF"]
              GenStop).
    + vm_compute. reflexivity.
    + vm_compute. reflexivity.
    + compute_done.
  - apply (single_pass_without_entities (open_stream headerless)
             (behind_header headerless) legacy_header [tag 0 "EOF"]
             (GenRaise (DXFStructureError "Invalid group code"))).
    + vm_compute. reflexivity.
    + vm_compute. reflexivity.
    + compute_done.
Defined.

Lemma nothing_after_endsec_witness :
  single_pass_modelspace (open_stream single_line)
  = Some (mkResult [] SpReturn false).
Proof.
  apply (nothing_after_endsec (open_stream single_line) (behind_header single_line)
           legacy_header
           [tag 0 "SECTION"; tag 2 "ENTITIES"; tag 0 "LINE"; tag 8 "0"]
           [tag 0 "EOF"] (GenRaise (DXFStructureError "Invalid group code"))
           after_line).
  - vm_compute. reflexivity.
  - vm_compute. reflexivity.
  - reflexivity.
  - reflexivity.
Defined.

Lemma load_entities_by_spans_witness :
  (load_entities (opened (two_entities [])) 3).1
  = records_between (opened (two_entities [])) (two_entities [])
      (entry "LINE" 73)
      [entry "CIRCLE" 84; entry "ARC" 97; entry "ENDSEC" 107; entry "EOF" 116].
Proof.
  apply (load_entities_by_spans (opened (two_entities [])) 3).
  - reflexivity.
  - vm_compute. reflexivity.
  - simpl. lia.
  - repeat constructor; vm_compute; discriminate.
Defined.

Lemma load_entities_without_endsec_witness :
  let self := opened unclosed in
  (∃ x, (load_entities self (2 + 1)).1.2 = GenRaise x)
  ∧ (∃ x, (IterDXF_modelspace self).1.2 = GenRaise x)
  ∧ (IterDXF_modelspace self).1.1
    = (modelspace_loop (load_entities self (2 + 1)).1.1 [] entity_linker None []).2.
Proof.
  apply (load_entities_without_endsec (opened unclosed) 2).
  - vm_compute. reflexivity.
  - compute_done.
Defined.

Lemma export_write_close_witness :
  let loader := after_export (opened drawing) in
  ∃ doc' doc'',
    write_all loader (exported (opened drawing)) [INSERT true; INSERT false]
    = (Ok (), doc')
    ∧ IterDXFWriter_close loader doc' = (Ok (), doc'', loader)
    ∧ written (out_file doc'')
      = written (out_file (exported (opened drawing)))
        ++ concat [dxf ["  0"; "INSERT"; "  2"; "BLOCK"; "  0"; "ATTRIB";
                        "  2"; "TAG"; "  0"; "SEQEND"];
                   dxf ["  0"; "INSERT"; "  2"; "BLOCK"]]
        ++ written (out_file
                      {| out_file := {| written := ENDSEC_marker ++ EOF_marker;
                                        out_closed := true |};
                         text := [] |})
    ∧ out_closed (out_file doc'') = true.
Proof.
  apply (export_write_close (opened drawing)).
  - vm_compute. reflexivity.
  - repeat constructor; vm_compute; reflexivity.
  - vm_compute. reflexivity.
Defined.

Lemma closed_handles_raise_witness :
  (IterDXF_modelspace (IterDXF_close (opened drawing))).1 = ([], GenRaise ValueError)
  ∧ (IterDXF_export (IterDXF_close (opened drawing))).1 = Raise ValueError
  ∧ (∀ loader loader' doc doc',
       IterDXFWriter_close loader doc = (Ok (), doc', loader') →
       ∀ loader'', IterDXFWriter_close loader'' doc' = (Raise ValueError, doc', loader'')).
Proof.
  apply (closed_handles_raise (opened drawing) 2 (entry "LINE" 73) (entry "LINE" 73)
           (drop 4 (index (structure (opened drawing))))).
  - vm_compute. reflexivity.
  - vm_compute. reflexivity.
  - vm_compute. reflexivity.
Defined.

Lemma write_all_or_nothing_witness :
  let doc := exported (opened drawing) in
  IterDXFWriter_write (opened drawing) doc open_polyline
  = (Raise AttributeError,
     {| out_file := out_file doc; text := ord <$> dxf ["  0"; "POLYLINE"; "  0"; "VERTEX"] |},
     remove_dependencies open_polyline)
  ∧ out_file {| out_file := out_file doc;
                text := ord <$> dxf ["  0"; "POLYLINE"; "  0"; "VERTEX"] |}
    = out_file doc
  ∧ remove_dependencies open_polyline = remove_dependencies open_polyline.
Proof.
  intros doc.
  assert (Hw : IterDXFWriter_write (opened drawing) doc open_polyline
               = (Raise AttributeError,
                  {| out_file := out_file doc;
                     text := ord <$> dxf ["  0"; "POLYLINE"; "  0"; "VERTEX"] |},
                  remove_dependencies open_polyline))
    by (vm_compute; reflexivity).
  split; [exact Hw|].
  apply (write_all_or_nothing (opened drawing) doc _ open_polyline _ AttributeError Hw).
Defined.

End OnFurtherSamples.
